(** * The editable Text field of solid-ui-react

    A shallow embedding of [src/components/text/index.tsx]: the component's
    state, its three input handlers ([onFocus], [onChange], [onBlur] with the
    asynchronous [saveHandler]) and its render function, followed by the
    properties of the edit / save / error cycle.

    The handlers are run to completion.  Every call that leaves the component
    (the writer of [@inrupt/solid-client], the state setters of React, the
    caller's callbacks) is logged in order, so that "exactly once", "never"
    and "before" are statements about a list. *)

From Stdlib Require Import String List Bool NArith Lia.
Import ListNotations.
Open Scope string_scope.

(** ** JavaScript values *)

(** [if (s)] on a string: only the empty string is falsy. *)
Definition truthy_string (s : string) : bool :=
  match s with
  | EmptyString => false
  | String _ _ => true
  end.

(** [if (x)] on [T | undefined] where [T] is an object type. *)
Definition truthy_object {A : Type} (x : option A) : bool :=
  match x with
  | Some _ => true
  | None => false
  end.

(** [if (s)] on [string | undefined]. *)
Definition truthy_opt_string (s : option string) : bool :=
  match s with
  | Some s' => truthy_string s'
  | None => false
  end.

(** [a !== b] where [a : string | null] and [b : string]. *)
Definition strict_neq (a : option string) (b : string) : bool :=
  match a with
  | Some a' => negb (String.eqb a' b)
  | None => true
  end.

(** [s || ""] where [s : string | null]. *)
Definition or_empty (s : option string) : string :=
  match s with
  | Some s' => if truthy_string s' then s' else EmptyString
  | None => EmptyString
  end.

(** [Url] of solid-client is an RDF/JS named node, an object. *)
Record NamedNode : Type := mkNamedNode { node_value : string }.

(** [Url | UrlString]. *)
Inductive UrlOrString : Type :=
| AsUrl (u : NamedNode)
| AsUrlString (s : string).

(** [if (u)] on [Url | UrlString | undefined]: an object is always truthy. *)
Definition truthy_location (u : option UrlOrString) : bool :=
  match u with
  | Some (AsUrl _) => true
  | Some (AsUrlString s) => truthy_string s
  | None => false
  end.

(** How an awaited promise settles. *)
Inductive Settled (A E : Type) : Type :=
| Fulfilled (a : A)
| Rejected (e : E).
Arguments Fulfilled {A E} a.
Arguments Rejected {A E} e.

(** How a call ends. *)
Inductive Completion (E A : Type) : Type :=
| Returns (a : A)
| Throws (e : E).
Arguments Returns {E A} a.
Arguments Throws {E A} e.

(** ** The collaborators imported from [@inrupt/solid-client]

    Their code is outside the repository; the component only relies on their
    signatures.  The writer is asynchronous and may reject; the others are the
    pure constructors and accessors of the library.  [Err] is whatever a
    promise rejects with or a callback throws, [new_Error] is [new Error(msg)]. *)
Class SolidClient : Type := {
  Thing : Type;
  SolidDataset : Type;
  Fetch : Type;
  Err : Type;
  new_Error : string -> Err;
  setStringWithLocale : Thing -> UrlOrString -> string -> string -> Thing;
  setStringNoLocale : Thing -> UrlOrString -> string -> Thing;
  setThing : SolidDataset -> Thing -> SolidDataset;
  saveSolidDatasetAt :
    UrlOrString -> SolidDataset -> Fetch -> Settled SolidDataset Err;
  getSourceUrl : SolidDataset -> string;
  hasResourceInfo : SolidDataset -> bool
}.

Section TextComponent.

Context `{SC : SolidClient}.

(** ** Props and state *)

(** [React.InputHTMLAttributes]: the [type] key, if the object has one,
    and the rest. *)
Record InputProps : Type := mkInputProps {
  input_type : option string;
  input_rest : list (string * string)
}.

(** The props of [Text] together with what [useContext] and [useProperty]
    hand to the render that created the handlers: [fetch], [error], [value],
    [thing] and [property].  [solidDataset] is the prop of that name, which
    the component passes on as [useProperty({ dataset: propDataset, ... })]. *)
Record Props : Type := mkProps {
  saveDatasetTo : option UrlOrString;
  locale : option string;
  onSave : option (option SolidDataset -> Thing -> Completion Err unit);
  onError : option (Err -> Completion Err unit);
  edit : bool;
  autosave : bool;
  inputProps : option InputProps;
  other : list (string * string);
  fetch : Fetch;
  error : option Err;
  value : option string;
  thing : option Thing;
  property : UrlOrString;
  solidDataset : option SolidDataset
}.

(** [text] and [initialValue] are the two [useState<string | null>] cells;
    [contextDataset] is the dataset held by the surrounding dataset context,
    the cell that the [setDataset] handed out by [useProperty] replaces.
    The third [useState] cell is never read: only an updater is ever queued on
    it, and that updater throws, so the cell is modelled by the queued thrown
    value, [pendingThrow]. *)
Record State : Type := mkState {
  text : option string;
  initialValue : option string;
  contextDataset : option SolidDataset;
  pendingThrow : option Err
}.

(** [useProperty]'s [dataset], the one the render and its handlers read:
    the [solidDataset] prop when it is given, and the dataset of the
    surrounding context otherwise.  A component cannot replace its own prop:
    [setDataset] reaches the context only. *)
Definition dataset (p : Props) (st : State) : option SolidDataset :=
  match solidDataset p with
  | Some own => Some own
  | None => contextDataset st
  end.

Definition with_text (v : option string) (st : State) : State :=
  mkState v (initialValue st) (contextDataset st) (pendingThrow st).

Definition with_initialValue (v : option string) (st : State) : State :=
  mkState (text st) v (contextDataset st) (pendingThrow st).

Definition with_contextDataset (d : option SolidDataset) (st : State)
  : State :=
  mkState (text st) (initialValue st) d (pendingThrow st).

Definition with_pendingThrow (e : option Err) (st : State) : State :=
  mkState (text st) (initialValue st) (contextDataset st) e.

(** [useState(value as string)], twice, on the first render, inside a
    context that holds [d]. *)
Definition mount (p : Props) (d : option SolidDataset) : State :=
  mkState (value p) (value p) d None.

(** ** Effects of a handler, in the order the code performs them *)

Inductive Effect : Type :=
| CallSaveSolidDatasetAt (url : UrlOrString) (d : SolidDataset) (f : Fetch)
| CallSetDataset (d : SolidDataset)
| CallSetErrorState (thrown : Err)
| CallSetText (v : string)
| CallSetInitialValue (v : string)
| CallOnSave (saved : option SolidDataset) (updated : Thing)
| CallOnError (e : Err).

Definition is_write (e : Effect) : bool :=
  match e with CallSaveSolidDatasetAt _ _ _ => true | _ => false end.

Definition is_setDataset (e : Effect) : bool :=
  match e with CallSetDataset _ => true | _ => false end.

Definition is_onSave (e : Effect) : bool :=
  match e with CallOnSave _ _ => true | _ => false end.

Definition is_onError (e : Effect) : bool :=
  match e with CallOnError _ => true | _ => false end.

Definition is_setErrorState (e : Effect) : bool :=
  match e with CallSetErrorState _ => true | _ => false end.

Definition count (f : Effect -> bool) (tr : list Effect) : nat :=
  length (filter f tr).

(** No [setDataset] is logged ahead of the first call of the writer. *)
Fixpoint no_update_before_write (tr : list Effect) : bool :=
  match tr with
  | [] => true
  | e :: tr' =>
      if is_write e then true
      else if is_setDataset e then false
      else no_update_before_write tr'
  end.

(** ** A handler: state of the next render, log, normal or abrupt end *)

Record Run (A : Type) : Type := mkRun {
  effects : list Effect;
  next : State;
  result : Completion Err A
}.
Arguments mkRun {A} effects next result.
Arguments effects {A} r.
Arguments next {A} r.
Arguments result {A} r.

Definition Handler (A : Type) : Type := State -> Run A.

Definition ret {A : Type} (a : A) : Handler A :=
  fun s => mkRun [] s (Returns a).

Definition throw {A : Type} (e : Err) : Handler A :=
  fun s => mkRun [] s (Throws e).

Definition bind {A B : Type} (m : Handler A) (k : A -> Handler B) : Handler B :=
  fun s =>
    let r := m s in
    match result r with
    | Returns a =>
        let r' := k a (next r) in
        mkRun (effects r ++ effects r') (next r') (result r')
    | Throws e => mkRun (effects r) (next r) (Throws e)
    end.

(** [try { body } catch (e) { handler(e) }]. *)
Definition try_catch {A : Type} (body : Handler A) (handler : Err -> Handler A)
  : Handler A :=
  fun s =>
    let r := body s in
    match result r with
    | Returns _ => r
    | Throws e =>
        let r' := handler e (next r) in
        mkRun (effects r ++ effects r') (next r') (result r')
    end.

Definition perform (e : Effect) (f : State -> State) : Handler unit :=
  fun s => mkRun [e] (f s) (Returns tt).

Notation "x <- m ;; k" := (bind m (fun x => k))
  (at level 61, m at next level, right associativity).
Notation "m ;; k" := (bind m (fun _ => k))
  (at level 61, right associativity).

(** The truthy value of [string | undefined], if there is one. *)
Definition as_truthy_string (s : option string) : option string :=
  if truthy_opt_string s then s else None.

(** The truthy value of [Url | UrlString | undefined], if there is one. *)
Definition as_truthy_location (u : option UrlOrString) : option UrlOrString :=
  if truthy_location u then u else None.

(** ** Calls that leave the component *)

(** [await saveSolidDatasetAt(url, d, { fetch })]: a rejection is thrown at
    the [await]. *)
Definition await_saveSolidDatasetAt (url : UrlOrString) (d : SolidDataset)
  (f : Fetch) : Handler SolidDataset :=
  fun s =>
    mkRun [CallSaveSolidDatasetAt url d f] s
      match saveSolidDatasetAt url d f with
      | Fulfilled saved => Returns saved
      | Rejected e => Throws e
      end.

(** [setDataset(d)] replaces the dataset of the surrounding context. *)
Definition call_setDataset (d : SolidDataset) : Handler unit :=
  perform (CallSetDataset d) (with_contextDataset (Some d)).

Definition call_setText (v : string) : Handler unit :=
  perform (CallSetText v) (with_text (Some v)).

Definition call_setInitialValue (v : string) : Handler unit :=
  perform (CallSetInitialValue v) (with_initialValue (Some v)).

(** [setErrorState(() => { throw e })].  React runs a functional updater when
    it processes the hook's queue in the next render; the eager run inside the
    setter swallows what the updater throws.  The setter itself returns, and
    the throw is queued for the render.  Updaters run in the order they were
    queued, so an earlier queued throw stays the one that is raised. *)
Definition call_setErrorState_throwing (e : Err) : Handler unit :=
  perform (CallSetErrorState e)
    (fun st =>
       match pendingThrow st with
       | Some _ => st
       | None => with_pendingThrow (Some e) st
       end).

Definition call_onSave (cb : option SolidDataset -> Thing -> Completion Err unit)
  (saved : option SolidDataset) (updated : Thing) : Handler unit :=
  fun s => mkRun [CallOnSave saved updated] s (cb saved updated).

Definition call_onError (cb : Err -> Completion Err unit) (e : Err)
  : Handler unit :=
  fun s => mkRun [CallOnError e] s (cb e).

(** ** The component *)

Definition no_destination_message : string :=
  "Please provide saveDatasetTo location for new data".

(** [updatedResource] of [saveHandler]. *)
Definition updatedResource (p : Props) (t : Thing) (newValue : string) : Thing :=
  match as_truthy_string (locale p) with
  | Some l => setStringWithLocale t (property p) newValue l
  | None => setStringNoLocale t (property p) newValue
  end.

(** The body of the [try] block up to the binding of [savedDataset], which
    stays [undefined] in the last branch. *)
Definition save_step (p : Props) (d : SolidDataset) (updated : Thing)
  : Handler (option SolidDataset) :=
  match as_truthy_location (saveDatasetTo p) with
  | Some to =>
      savedDataset <- await_saveSolidDatasetAt to (setThing d updated) (fetch p) ;;
      call_setDataset savedDataset ;;
      ret (Some savedDataset)
  | None =>
      if hasResourceInfo d then
        savedDataset <- await_saveSolidDatasetAt (AsUrlString (getSourceUrl d))
                          (setThing d updated) (fetch p) ;;
        call_setDataset savedDataset ;;
        ret (Some savedDataset)
      else
        call_setErrorState_throwing (new_Error no_destination_message) ;;
        ret None
  end.

(** [if (onSave) { onSave(savedDataset, updatedResource); }]. *)
Definition notify_onSave (p : Props) (saved : option SolidDataset)
  (updated : Thing) : Handler unit :=
  match onSave p with
  | Some cb => call_onSave cb saved updated
  | None => ret tt
  end.

(** [if (onError) { onError(saveError); }]. *)
Definition notify_onError (p : Props) (saveError : Err) : Handler unit :=
  match onError p with
  | Some cb => call_onError cb saveError
  | None => ret tt
  end.

(** [saveHandler], run from the render whose props and state are [p] and
    [st], on an event whose [e.target.value] is [target_value].  The result
    [Throws e] is a rejected promise. *)
Definition saveHandler (p : Props) (st : State) (target_value : string)
  : Handler unit :=
  if strict_neq (initialValue st) target_value then
    match thing p, dataset p st with
    | Some t, Some d =>
        let newValue := target_value in
        let updated := updatedResource p t newValue in
        try_catch
          (savedDataset <- save_step p d updated ;;
           notify_onSave p savedDataset updated)
          (fun saveError => notify_onError p saveError)
    | _, _ => ret tt
    end
  else ret tt.

(** [onFocus={(e) => setInitialValue(e.target.value)}]. *)
Definition onFocus (p : Props) (st : State) (target_value : string)
  : Handler unit :=
  call_setInitialValue target_value.

(** [onChange={(e) => setText(e.target.value)}]. *)
Definition onChange (p : Props) (st : State) (target_value : string)
  : Handler unit :=
  call_setText target_value.

(** [onBlur={(e) => autosave && saveHandler(e)}]; the promise is dropped. *)
Definition onBlur (p : Props) (st : State) (target_value : string)
  : Handler unit :=
  if autosave p then saveHandler p st target_value else ret tt.

(** An event with [e.target.value = target_value] reaches a handler created
    by the render of state [st]: the handler reads [st] and queues its updates
    on top of it. *)
Definition run {A : Type} (h : State -> string -> Handler A) (st : State)
  (target_value : string) : Run A :=
  h st target_value st.

(** The [useEffect] that reports a resolution error. *)
Definition report_resolution_error (p : Props) : Handler unit :=
  match error p with
  | Some e => notify_onError p e
  | None => ret tt
  end.

(** ** Rendering *)

Inductive Element : Type :=
| h3 (children : string)
| span (attrs : list (string * string)) (children : option string)
| input (type : string) (attrs : option InputProps) (value : string).

(** What [Text] returns: one element, or a fragment [<>...</>] holding the
    children that are not [false] or [undefined]. *)
Inductive Rendered : Type :=
| element (e : Element)
| fragment (children : list Element).

(** [inputProps && inputProps.type ? inputProps.type : "text"]. *)
Definition type_expression (ip : option InputProps) : string :=
  match ip with
  | Some i =>
      match as_truthy_string (input_type i) with
      | Some ty => ty
      | None => "text"
      end
  | None => "text"
  end.

(** The [type] the element ends up with: [{...inputProps}] comes after
    [type=], so a [type] key of [inputProps], be it the empty string,
    replaces the value of the expression. *)
Definition rendered_input_type (ip : option InputProps) : string :=
  match ip with
  | Some i =>
      match input_type i with
      | Some ty => ty
      | None => type_expression ip
      end
  | None => type_expression ip
  end.

(** The render function.  A queued throwing updater is run by the hook on the
    way in, so the render throws before it returns anything. *)
Definition render (p : Props) (st : State) : Completion Err Rendered :=
  match pendingThrow st with
  | Some e => Throws e
  | None =>
      if negb (truthy_object (dataset p st)) && negb (truthy_object (thing p))
      then Returns (element (h3 "fetching data in progress"))
      else
        Returns (fragment
          ((if negb (edit p) && truthy_object (dataset p st)
               && truthy_object (thing p)
            then [span (other p) (text st)] else [])
           ++
           (if edit p && truthy_object (dataset p st) && truthy_object (thing p)
            then [input (rendered_input_type (inputProps p)) (inputProps p)
                    (or_empty (text st))]
            else [])))
  end.


(** The destination the writer is called with, when there is one. *)
Definition destination (p : Props) (d : SolidDataset) : option UrlOrString :=
  match as_truthy_location (saveDatasetTo p) with
  | Some to => Some to
  | None =>
      if hasResourceInfo d then Some (AsUrlString (getSourceUrl d)) else None
  end.

End TextComponent.

Arguments mkRun {SC A} effects next result.
Arguments effects {SC A} r.
Arguments next {SC A} r.
Arguments result {SC A} r.

(** * The input and its events

    The handlers exist on the [<input>] only, and the input is controlled:
    its [value] attribute is [text || ""].  A focus or a blur therefore
    carries the value the input shows, and a change carries what was typed.
    Events are handled one after the other, each on the state the previous
    handler left, its promise settled. *)

Section TextEvents.

Context `{SC : SolidClient}.

Inductive InputEvent : Type :=
| Focus
| Change (typed : string)
| Blur.

Definition is_blur (ev : InputEvent) : bool :=
  match ev with Blur => true | _ => false end.

(** The [value] attribute of the [<input>] of a render, if it has one. *)
Definition input_value (p : Props) (st : State) : option string :=
  match render p st with
  | Returns (fragment [input _ _ shown]) => Some shown
  | _ => None
  end.

(** An event reaches the handler the last render put on the input; without
    an input there is nothing to focus, change or blur. *)
Definition dispatch (p : Props) (st : State) (ev : InputEvent) : Run unit :=
  match input_value p st with
  | Some shown =>
      match ev with
      | Focus => run (onFocus p) st shown
      | Change typed => run (onChange p) st typed
      | Blur => run (onBlur p) st shown
      end
  | None => mkRun [] st (Returns tt)
  end.

(** A session of events: the log of all calls, and the state at the end. *)
Fixpoint play (p : Props) (st : State) (evs : list InputEvent)
  : list Effect * State :=
  match evs with
  | [] => ([], st)
  | ev :: evs' =>
      let r := dispatch p st ev in
      let rest := play p (next r) evs' in
      ((effects r ++ fst rest)%list, snd rest)
  end.

(** The two setters of the component's own cells, [setText] and
    [setInitialValue]. *)
Definition is_local_update (e : Effect) : bool :=
  match e with
  | CallSetText _ | CallSetInitialValue _ => true
  | _ => false
  end.

End TextEvents.

(** * The Video field *)

Module Video.

Section VideoField.

(** The file type of the browser, the errors, and the collaborators of
    section 6 of the specification: [overwriteFile(url, blob) -> blob], which
    may fail, and the allocation of an object URL for the local preview. *)
Context {Blob Err : Type}.
Variable size : Blob -> N.
Variable overwriteFile : string -> Blob -> Settled Blob Err.
Variable createObjectURL : Blob -> string.

(** Modelled from the spec: the configuration of a file-like field, whose
    component source is missing: the autosave flag, the maximum-size
    constraint, whether [onSave] and [onError] are provided, and the resolved
    value, the URL of the file. *)
Record Props : Type := mkProps {
  autosave : bool;
  maxSize : option N;
  onSave : bool;
  onError : bool;
  value : string
}.

(** Modelled from the spec: the local preview of the missing Video source,
    the displayed source attribute. *)
Record State : Type := mkState {
  preview : option string
}.

(** Modelled from the spec: the calls the missing Video source makes, the
    writer [overwriteFile], the update of the preview and the two callbacks. *)
Inductive Effect : Type :=
| CallOverwriteFile (url : string) (file : Blob)
| CallSetPreview (objectUrl : string)
| CallOnSave
| CallOnError (e : Err).

Definition is_write (e : Effect) : bool :=
  match e with CallOverwriteFile _ _ => true | _ => false end.

(** Modelled from the spec: the size constraint of a file-like field.  The
    Video component's source is not among the files of the repository at
    hand (only its test is); "a file exceeding the configured maximum must
    not trigger a write".  No maximum means no constraint. *)
Definition satisfies_size_constraint (p : Props) (file : Blob) : bool :=
  match maxSize p with
  | Some m => (size file <=? m)%N
  | None => true
  end.

(** Modelled from the spec: the save step of a file-like field, which is in
    the missing Video source.  "Submit it to the external write primitive; on
    success ... invoke the success callback; on failure, leave canonical state
    untouched and invoke the error callback"; on success the displayed source
    becomes the URL derived from the new file. *)
Definition save_step (p : Props) (st : State) (file : Blob)
  : list Effect * State :=
  match overwriteFile (value p) file with
  | Fulfilled _ =>
      (CallOverwriteFile (value p) file
         :: CallSetPreview (createObjectURL file)
         :: (if onSave p then [CallOnSave] else []),
       mkState (Some (createObjectURL file)))
  | Rejected e =>
      (CallOverwriteFile (value p) file
         :: (if onError p then [CallOnError e] else []),
       st)
  end.

(** Modelled from the spec: the file-input change handler of the missing
    Video source.  "On file-input change, if autosave is enabled and the file
    satisfies the size constraint, invoke the save step immediately; if
    autosave is disabled, no external write occurs and the local preview is
    not updated from the new file." *)
Definition handleChange (p : Props) (st : State) (file : Blob)
  : list Effect * State :=
  if autosave p && satisfies_size_constraint p file
  then save_step p st file
  else ([], st).

End VideoField.

End Video.

(** * A pod in miniature, to run the component on *)

Module Demo.

Definition iri (u : UrlOrString) : string :=
  match u with
  | AsUrl n => node_value n
  | AsUrlString s => s
  end.

(** A thing is a list of (property, value, language tag). *)
Definition DemoThing : Type := list (string * string * option string).

(** A dataset: where it was fetched from, if anywhere, and its things. *)
Record DemoDataset : Type := mkDemoDataset {
  source : option string;
  things : list DemoThing
}.

(** The demo [fetch] says whether the server accepts the write. *)
Definition pod : SolidClient := {|
  Thing := DemoThing;
  SolidDataset := DemoDataset;
  Fetch := bool;
  Err := string;
  new_Error := fun msg => msg;
  setStringWithLocale := fun t p v l => [(iri p, v, Some l)];
  setStringNoLocale := fun t p v => [(iri p, v, None)];
  setThing := fun d t => mkDemoDataset (source d) (t :: things d);
  saveSolidDatasetAt := fun url d accepted =>
    if accepted then Fulfilled (mkDemoDataset (Some (iri url)) (things d))
    else Rejected "403 Forbidden";
  getSourceUrl := fun d =>
    match source d with Some u => u | None => EmptyString end;
  hasResourceInfo := fun d =>
    match source d with Some _ => true | None => false end
|}.

Definition name_property : UrlOrString :=
  AsUrlString "http://xmlns.com/foaf/0.1/name".

Definition alice : DemoThing := [(iri name_property, "Alice", None)].

(** A dataset fetched from a pod, and one built locally and never saved. *)
Definition fetched_dataset : DemoDataset :=
  mkDemoDataset (Some "https://pod.example/profile") [alice].

Definition new_dataset : DemoDataset := mkDemoDataset None [alice].

Definition quiet_onSave : option DemoDataset -> DemoThing -> Completion string unit :=
  fun _ _ => Returns tt.

Definition quiet_onError : string -> Completion string unit :=
  fun _ => Returns tt.

(** [<Text thing={alice} property={name} edit autosave onSave onError />]
    with a [fetch] that succeeds or not. *)
Definition editing (accepted : bool) : @Props pod :=
  mkProps (SC := pod) None None (Some quiet_onSave) (Some quiet_onError)
    true true None [] accepted None (Some "Alice") (Some alice) name_property
    None.

(** [<Text thing={alice} property={name} />]. *)
Definition viewing : @Props pod :=
  mkProps (SC := pod) None None None None
    false false None [] true None (Some "Alice") (Some alice) name_property
    None.

(** The state after the input was focused on "Alice" and [typed] in. *)
Definition edited (d : option DemoDataset) (typed : string) : @State pod :=
  mkState (SC := pod) (Some typed) (Some "Alice") d None.

(** The Video field on files that are just their size; the writer accepts. *)
Definition video : Video.Props :=
  Video.mkProps true (Some 0%N) true true "http://test.url/video.mp4".

Definition accept_file (url : string) (file : N) : Settled N string :=
  Fulfilled file.

Definition object_url (file : N) : string := "blob:preview".

(** Callbacks that throw. *)
Definition failing_onSave
  : option DemoDataset -> DemoThing -> Completion string unit :=
  fun _ _ => Throws "onSave failed".

Definition failing_onError : string -> Completion string unit :=
  fun _ => Throws "onError failed".

(** [<Text thing={alice} property={name} edit ... />] with everything else
    chosen, on a server that accepts the write or not. *)
Definition configured (to : option UrlOrString) (lang : option string)
  (save : option (option DemoDataset -> DemoThing -> Completion string unit))
  (report : option (string -> Completion string unit))
  (auto accepted : bool) : @Props pod :=
  mkProps (SC := pod) to lang save report true auto None [] accepted None
    (Some "Alice") (Some alice) name_property None.

(** [<Text solidDataset={fetched_dataset} thing={alice} property={name}
    edit autosave onSave onError />]: the dataset is passed as a prop. *)
Definition editing_own_dataset (accepted : bool) : @Props pod :=
  mkProps (SC := pod) None None (Some quiet_onSave) (Some quiet_onError)
    true true None [] accepted None (Some "Alice") (Some alice) name_property
    (Some fetched_dataset).



(** The state of the first render inside dataset [d]. *)
Definition mounted (d : option DemoDataset) : @State pod :=
  mkState (SC := pod) (Some "Alice") (Some "Alice") d None.

End Demo.

(** * Properties of the Text field *)

Section TextProperties.

Context `{SC : SolidClient}.

(** ** Sequencing and [try] / [catch] *)

Lemma bind_returns {A B : Type} (m : Handler A) (k : A -> Handler B)
  (s : State) (a : A) :
  result (m s) = Returns a ->
  bind m k s =
    mkRun (effects (m s) ++ effects (k a (next (m s))))
      (next (k a (next (m s)))) (result (k a (next (m s)))).
Proof.
  intros Hm. unfold bind. now rewrite Hm.
Qed.

Lemma bind_throws {A B : Type} (m : Handler A) (k : A -> Handler B)
  (s : State) (e : Err) :
  result (m s) = Throws e ->
  bind m k s = mkRun (effects (m s)) (next (m s)) (Throws e).
Proof.
  intros Hm. unfold bind. now rewrite Hm.
Qed.

(** A body that got past its first statement is caught from there on. *)
Lemma try_catch_bind_returns {A B : Type} (m : Handler A) (k : A -> Handler B)
  (h : Err -> Handler B) (s : State) (a : A) :
  result (m s) = Returns a ->
  try_catch (bind m k) h s =
    mkRun (effects (m s) ++ effects (try_catch (k a) h (next (m s))))
      (next (try_catch (k a) h (next (m s))))
      (result (try_catch (k a) h (next (m s)))).
Proof.
  intros Hm. unfold try_catch. rewrite (bind_returns m k s a Hm). cbn.
  destruct (result (k a (next (m s)))) as [b | e] eqn:Hk; cbn.
  - now rewrite Hk.
  - now rewrite app_assoc.
Qed.

(** A body whose first statement throws goes straight to the handler. *)
Lemma try_catch_bind_throws {A B : Type} (m : Handler A) (k : A -> Handler B)
  (h : Err -> Handler B) (s : State) (e : Err) :
  result (m s) = Throws e ->
  try_catch (bind m k) h s =
    mkRun (effects (m s) ++ effects (h e (next (m s))))
      (next (h e (next (m s)))) (result (h e (next (m s)))).
Proof.
  intros Hm. unfold try_catch. now rewrite (bind_throws m k s e Hm).
Qed.

(** ** Counting in a log *)

Lemma count_app (f : Effect -> bool) (l1 l2 : list Effect) :
  count f (l1 ++ l2) = count f l1 + count f l2.
Proof.
  unfold count. now rewrite filter_app, length_app.
Qed.

Lemma count_cons (f : Effect -> bool) (e : Effect) (l : list Effect) :
  count f (e :: l) = (if f e then 1 else 0) + count f l.
Proof.
  unfold count. cbn. now destruct (f e).
Qed.

(** ** The callbacks *)

Lemma strict_neq_same (v : string) : strict_neq (Some v) v = false.
Proof.
  cbn. now rewrite String.eqb_refl.
Qed.

Lemma notify_onError_state (p : Props) (e : Err) (s : State) :
  next (notify_onError p e s) = s.
Proof.
  unfold notify_onError. now destruct (onError p).
Qed.

Lemma notify_onError_effects (p : Props) (e : Err) (s : State) :
  effects (notify_onError p e s) =
    match onError p with
    | Some _ => [CallOnError e]
    | None => []
    end.
Proof.
  unfold notify_onError. now destruct (onError p).
Qed.

Lemma notify_onSave_state (p : Props) (saved : option SolidDataset)
  (updated : Thing) (s : State) :
  next (notify_onSave p saved updated s) = s.
Proof.
  unfold notify_onSave. now destruct (onSave p).
Qed.

Lemma notify_onSave_effects (p : Props) (saved : option SolidDataset)
  (updated : Thing) (s : State) :
  effects (notify_onSave p saved updated s) =
    match onSave p with
    | Some _ => [CallOnSave saved updated]
    | None => []
    end.
Proof.
  unfold notify_onSave. now destruct (onSave p).
Qed.

(** The end of the [try] block with its [catch]: [onSave] if there is one,
    then [onError] on whatever [onSave] threw. *)
Lemma guarded_onSave_state (p : Props) (saved : option SolidDataset)
  (updated : Thing) (s : State) :
  next (try_catch (notify_onSave p saved updated) (notify_onError p) s) = s.
Proof.
  unfold try_catch.
  destruct (result (notify_onSave p saved updated s)) eqn:Hr; cbn.
  - apply notify_onSave_state.
  - now rewrite notify_onError_state, notify_onSave_state.
Qed.

Lemma guarded_onSave_effects (p : Props) (saved : option SolidDataset)
  (updated : Thing) (s : State) :
  effects (try_catch (notify_onSave p saved updated) (notify_onError p) s) =
    match onSave p with
    | Some cb =>
        CallOnSave saved updated ::
        match cb saved updated with
        | Returns _ => []
        | Throws e =>
            match onError p with
            | Some _ => [CallOnError e]
            | None => []
            end
        end
    | None => []
    end.
Proof.
  unfold try_catch, notify_onSave, notify_onError.
  destruct (onSave p) as [cb |]; cbn; [| reflexivity].
  destruct (cb saved updated) as [[] | e]; cbn; [reflexivity |].
  now destruct (onError p).
Qed.

Lemma guarded_onSave_count (f : Effect -> bool) (p : Props)
  (saved : option SolidDataset) (updated : Thing) (s : State) :
  (forall o u, f (CallOnSave o u) = false) ->
  (forall e, f (CallOnError e) = false) ->
  count f
    (effects (try_catch (notify_onSave p saved updated) (notify_onError p) s))
  = 0.
Proof.
  intros Hs He. rewrite guarded_onSave_effects.
  destruct (onSave p) as [cb |]; [| reflexivity].
  rewrite count_cons, Hs.
  destruct (cb saved updated) as [[] | e]; [reflexivity |].
  destruct (onError p); [| reflexivity].
  now rewrite count_cons, He.
Qed.

(** ** The three ways through the [try] block *)

Lemma save_step_fulfilled (p : Props) (d : SolidDataset) (updated : Thing)
  (url : UrlOrString) (saved : SolidDataset) (s : State) :
  destination p d = Some url ->
  saveSolidDatasetAt url (setThing d updated) (fetch p) = Fulfilled saved ->
  save_step p d updated s =
    mkRun [CallSaveSolidDatasetAt url (setThing d updated) (fetch p);
           CallSetDataset saved]
      (with_contextDataset (Some saved) s) (Returns (Some saved)).
Proof.
  unfold destination, save_step. intros Hdest Hsave.
  destruct (as_truthy_location (saveDatasetTo p)) as [to |].
  - injection Hdest as ->.
    unfold bind, await_saveSolidDatasetAt; cbn. now rewrite Hsave.
  - destruct (hasResourceInfo d); [| discriminate].
    injection Hdest as <-.
    unfold bind, await_saveSolidDatasetAt; cbn. now rewrite Hsave.
Qed.

Lemma save_step_rejected (p : Props) (d : SolidDataset) (updated : Thing)
  (url : UrlOrString) (e : Err) (s : State) :
  destination p d = Some url ->
  saveSolidDatasetAt url (setThing d updated) (fetch p) = Rejected e ->
  save_step p d updated s =
    mkRun [CallSaveSolidDatasetAt url (setThing d updated) (fetch p)] s
      (Throws e).
Proof.
  unfold destination, save_step. intros Hdest Hsave.
  destruct (as_truthy_location (saveDatasetTo p)) as [to |].
  - injection Hdest as ->.
    unfold bind, await_saveSolidDatasetAt; cbn. now rewrite Hsave.
  - destruct (hasResourceInfo d); [| discriminate].
    injection Hdest as <-.
    unfold bind, await_saveSolidDatasetAt; cbn. now rewrite Hsave.
Qed.

Lemma save_step_no_destination (p : Props) (d : SolidDataset)
  (updated : Thing) (s : State) :
  destination p d = None ->
  pendingThrow s = None ->
  save_step p d updated s =
    mkRun [CallSetErrorState (new_Error no_destination_message)]
      (with_pendingThrow (Some (new_Error no_destination_message)) s)
      (Returns None).
Proof.
  unfold destination, save_step. intros Hdest Hpending.
  destruct (as_truthy_location (saveDatasetTo p)); [discriminate |].
  destruct (hasResourceInfo d); [discriminate |].
  unfold bind, call_setErrorState_throwing, perform; cbn.
  now rewrite Hpending.
Qed.

(** Without a destination the state setter is the only call of the step,
    whatever was queued before. *)
Lemma save_step_no_destination_effects (p : Props) (d : SolidDataset)
  (updated : Thing) (s : State) :
  destination p d = None ->
  effects (save_step p d updated s) =
    [CallSetErrorState (new_Error no_destination_message)]
  /\ result (save_step p d updated s) = Returns None
  /\ contextDataset (next (save_step p d updated s)) = contextDataset s
  /\ text (next (save_step p d updated s)) = text s
  /\ initialValue (next (save_step p d updated s)) = initialValue s.
Proof.
  unfold destination, save_step. intros Hdest.
  destruct (as_truthy_location (saveDatasetTo p)); [discriminate |].
  destruct (hasResourceInfo d); [discriminate |].
  unfold bind, call_setErrorState_throwing, perform; cbn.
  now destruct (pendingThrow s).
Qed.

(** [saveHandler] gets to its [try] block exactly when the value changed and
    both the thing and the dataset are there. *)
Lemma saveHandler_enters (p : Props) (st : State) (v : string) (t : Thing)
  (d : SolidDataset) :
  strict_neq (initialValue st) v = true ->
  thing p = Some t ->
  dataset p st = Some d ->
  run (saveHandler p) st v =
    try_catch
      (bind (save_step p d (updatedResource p t v))
         (fun savedDataset =>
            notify_onSave p savedDataset (updatedResource p t v)))
      (notify_onError p) st.
Proof.
  intros Hneq Ht Hd. unfold run, saveHandler. now rewrite Hneq, Ht, Hd.
Qed.

Lemma saveHandler_skips (p : Props) (st : State) (v : string) :
  strict_neq (initialValue st) v = false
  \/ thing p = None \/ dataset p st = None ->
  run (saveHandler p) st v = mkRun [] st (Returns tt).
Proof.
  unfold run, saveHandler.
  intros [Hsame | [Ht | Hd]].
  - now rewrite Hsame.
  - rewrite Ht. now destruct (strict_neq (initialValue st) v).
  - rewrite Hd.
    now destruct (strict_neq (initialValue st) v), (thing p).
Qed.

Lemma onBlur_autosave (p : Props) (st : State) (v : string) :
  autosave p = true ->
  run (onBlur p) st v = run (saveHandler p) st v.
Proof.
  intros Hauto. unfold run, onBlur. now rewrite Hauto.
Qed.

Lemma onBlur_skips (p : Props) (st : State) (v : string) :
  strict_neq (initialValue st) v = false
  \/ thing p = None \/ dataset p st = None ->
  run (onBlur p) st v = mkRun [] st (Returns tt).
Proof.
  intros Hskip. unfold run, onBlur.
  destruct (autosave p); [| reflexivity].
  now apply saveHandler_skips.
Qed.

(** ** Focus and rendering *)

Lemma focus_snapshots_value (p : Props) (st : State) (v : string) :
  run (onFocus p) st v =
    mkRun [CallSetInitialValue v] (with_initialValue (Some v) st) (Returns tt).
Proof.
  reflexivity.
Qed.

(** Focus, then blur on the same input value: nothing is called. *)
Lemma focus_then_blur_is_silent (p : Props) (st : State) (v : string) :
  run (onBlur p) (next (run (onFocus p) st v)) v =
    mkRun [] (with_initialValue (Some v) st) (Returns tt).
Proof.
  rewrite focus_snapshots_value. cbn [next].
  apply onBlur_skips. left. apply strict_neq_same.
Qed.


(** In edit mode it is one input holding [text || ""]. *)
Lemma render_input (p : Props) (st : State) (t : Thing) (d : SolidDataset) :
  pendingThrow st = None ->
  edit p = true ->
  thing p = Some t ->
  dataset p st = Some d ->
  render p st =
    Returns (fragment [input (rendered_input_type (inputProps p))
                         (inputProps p) (or_empty (text st))]).
Proof.
  intros Hpending Hedit Ht Hd. unfold render.
  now rewrite Hpending, Hedit, Ht, Hd.
Qed.


(** ** The edit / save / error cycle *)

(** C1: on a blur of the editable Text field whose input value equals the
    initial value taken on focus, the writer [saveSolidDatasetAt] is not
    invoked and neither [onSave] nor [onError] is called: the handler calls
    nothing at all. *)
Theorem blur_unchanged_calls_nothing (p : Props) (st : State) (v : string) :
  initialValue st = Some v ->
  count is_write (effects (run (onBlur p) st v)) = 0
  /\ count is_onSave (effects (run (onBlur p) st v)) = 0
  /\ count is_onError (effects (run (onBlur p) st v)) = 0
  /\ effects (run (onBlur p) st v) = [].
Proof.
  intros Hinit.
  rewrite onBlur_skips.
  - now cbn.
  - left. rewrite Hinit. apply strict_neq_same.
Qed.

(** C2, amended: on a blur with autosave enabled and an input value that
    differs from the initial value (thing and dataset are present whenever
    the input is rendered): when a save destination exists (a truthy
    [saveDatasetTo], or else a dataset with resource info), the writer is
    invoked exactly once, it is the first call of the handler, and no
    [setDataset] comes before it; when no destination exists, the writer is
    not invoked. *)
Theorem blur_changed_writes_once_first (p : Props) (st : State) (v : string)
  (t : Thing) (d : SolidDataset) :
  autosave p = true ->
  strict_neq (initialValue st) v = true ->
  thing p = Some t ->
  dataset p st = Some d ->
  match destination p d with
  | Some url =>
      count is_write (effects (run (onBlur p) st v)) = 1
      /\ hd_error (effects (run (onBlur p) st v)) =
           Some (CallSaveSolidDatasetAt url
                   (setThing d (updatedResource p t v)) (fetch p))
      /\ no_update_before_write (effects (run (onBlur p) st v)) = true
  | None => count is_write (effects (run (onBlur p) st v)) = 0
  end.
Proof.
  intros Hauto Hneq Ht Hd.
  rewrite (onBlur_autosave p st v Hauto), (saveHandler_enters p st v t d Hneq Ht Hd).
  destruct (destination p d) as [url |] eqn:Hdest.
  - destruct (saveSolidDatasetAt url (setThing d (updatedResource p t v))
                (fetch p)) as [saved | e] eqn:Hsave.
    + pose proof (save_step_fulfilled p d _ url saved st Hdest Hsave) as Hstep.
      rewrite (try_catch_bind_returns _ _ _ st (Some saved))
        by now rewrite Hstep.
      rewrite Hstep; cbn [effects next result app].
      split; [| split; reflexivity].
      rewrite !count_cons, guarded_onSave_count; reflexivity.
    + pose proof (save_step_rejected p d _ url e st Hdest Hsave) as Hstep.
      rewrite (try_catch_bind_throws _ _ _ st e) by now rewrite Hstep.
      rewrite Hstep; cbn [effects next result app].
      split; [| split; reflexivity].
      rewrite notify_onError_effects, count_cons.
      now destruct (onError p).
  - destruct (save_step_no_destination_effects p d (updatedResource p t v) st
                Hdest) as (Heff & Hres & _).
    rewrite (try_catch_bind_returns _ _ _ st None Hres).
    cbn [effects next result]. rewrite Heff, count_app.
    now rewrite guarded_onSave_count.
Qed.

(** C3: when the write of a save attempt fails with [e], [onError] (if the
    caller gave one) is invoked exactly once, with [e]; [setDataset] is not
    called; the state, and with it the dataset and what is rendered, is as
    before; and the writer was called once, not again. *)
Theorem write_failure_reports_once (p : Props) (st : State) (v : string)
  (t : Thing) (d : SolidDataset) (url : UrlOrString) (e : Err) :
  strict_neq (initialValue st) v = true ->
  thing p = Some t ->
  dataset p st = Some d ->
  destination p d = Some url ->
  saveSolidDatasetAt url (setThing d (updatedResource p t v)) (fetch p)
    = Rejected e ->
  effects (run (saveHandler p) st v) =
    CallSaveSolidDatasetAt url (setThing d (updatedResource p t v)) (fetch p)
    :: match onError p with
       | Some _ => [CallOnError e]
       | None => []
       end
  /\ filter is_onError (effects (run (saveHandler p) st v)) =
       match onError p with
       | Some _ => [CallOnError e]
       | None => []
       end
  /\ count is_setDataset (effects (run (saveHandler p) st v)) = 0
  /\ count is_write (effects (run (saveHandler p) st v)) = 1
  /\ next (run (saveHandler p) st v) = st
  /\ render p (next (run (saveHandler p) st v)) = render p st.
Proof.
  intros Hneq Ht Hd Hdest Hsave.
  pose proof (save_step_rejected p d _ url e st Hdest Hsave) as Hstep.
  assert (Hnext : next (run (saveHandler p) st v) = st).
  { rewrite (saveHandler_enters p st v t d Hneq Ht Hd).
    rewrite (try_catch_bind_throws _ _ _ st e) by now rewrite Hstep.
    cbn. now rewrite notify_onError_state, Hstep. }
  rewrite Hnext.
  rewrite (saveHandler_enters p st v t d Hneq Ht Hd).
  rewrite (try_catch_bind_throws _ _ _ st e) by now rewrite Hstep.
  rewrite Hstep; cbn. rewrite notify_onError_effects.
  repeat split; now destruct (onError p).
Qed.

(** C4, amended: when the write of a save attempt succeeds with [saved],
    [setDataset] is called exactly once, with [saved]; the dataset the
    component reads from then on is [saved] when it came from the
    surrounding context, and is still the [solidDataset] prop when it was
    passed as that prop; and [onSave], when provided, is invoked exactly
    once, with [saved] and the updated thing. *)
Theorem write_success_updates_and_notifies (p : Props) (st : State)
  (v : string) (t : Thing) (d : SolidDataset) (url : UrlOrString)
  (saved : SolidDataset) :
  strict_neq (initialValue st) v = true ->
  thing p = Some t ->
  dataset p st = Some d ->
  destination p d = Some url ->
  saveSolidDatasetAt url (setThing d (updatedResource p t v)) (fetch p)
    = Fulfilled saved ->
  filter is_setDataset (effects (run (saveHandler p) st v)) =
    [CallSetDataset saved]
  /\ dataset p (next (run (saveHandler p) st v)) =
       match solidDataset p with
       | Some own => Some own
       | None => Some saved
       end
  /\ filter is_onSave (effects (run (saveHandler p) st v)) =
       match onSave p with
       | Some _ => [CallOnSave (Some saved) (updatedResource p t v)]
       | None => []
       end.
Proof.
  intros Hneq Ht Hd Hdest Hsave.
  pose proof (save_step_fulfilled p d _ url saved st Hdest Hsave) as Hstep.
  rewrite (saveHandler_enters p st v t d Hneq Ht Hd).
  rewrite (try_catch_bind_returns _ _ _ st (Some saved)) by now rewrite Hstep.
  rewrite Hstep; cbn [effects next result app filter is_setDataset is_onSave].
  rewrite guarded_onSave_state, guarded_onSave_effects.
  split; [| split].
  - destruct (onSave p) as [cb |]; [| reflexivity]. cbn.
    destruct (cb (Some saved) (updatedResource p t v)) as [[] | e];
      [reflexivity |].
    now destruct (onError p).
  - unfold dataset. now destruct (solidDataset p).
  - destruct (onSave p) as [cb |]; [| reflexivity]. cbn.
    destruct (cb (Some saved) (updatedResource p t v)) as [[] | e];
      [reflexivity |].
    now destruct (onError p).
Qed.

(** What a save without a destination calls: the throwing state updater,
    then the end of the [try] block as after a successful write, with
    [savedDataset] still [undefined]. *)
Lemma saveHandler_no_destination (p : Props) (st : State) (v : string)
  (t : Thing) (d : SolidDataset) :
  strict_neq (initialValue st) v = true ->
  thing p = Some t ->
  dataset p st = Some d ->
  destination p d = None ->
  effects (run (saveHandler p) st v) =
    CallSetErrorState (new_Error no_destination_message)
    :: effects (try_catch (notify_onSave p None (updatedResource p t v))
                  (notify_onError p)
                  (next (save_step p d (updatedResource p t v) st)))
  /\ next (run (saveHandler p) st v) =
       next (save_step p d (updatedResource p t v) st).
Proof.
  intros Hneq Ht Hd Hdest.
  destruct (save_step_no_destination_effects p d (updatedResource p t v) st Hdest)
    as (Heff & Hres & _).
  rewrite (saveHandler_enters p st v t d Hneq Ht Hd).
  rewrite (try_catch_bind_returns _ _ _ st None Hres).
  cbn [effects next result]. rewrite Heff, guarded_onSave_state.
  now split.
Qed.

(** C5, amended: an autosave-triggered save of data without a destination
    raises the configuration error [Error("Please provide saveDatasetTo
    location for new data")] from a throwing state updater.  The writer is
    not invoked, the setter is the first call of the handler, and the error
    is thrown by the next render of the component; [onError] is not invoked
    with it, and is invoked at all only with what [onSave] throws. *)
Theorem no_destination_throws_in_render (p : Props) (st : State) (v : string)
  (t : Thing) (d : SolidDataset) :
  autosave p = true ->
  strict_neq (initialValue st) v = true ->
  thing p = Some t ->
  dataset p st = Some d ->
  destination p d = None ->
  pendingThrow st = None ->
  count is_write (effects (run (onBlur p) st v)) = 0
  /\ hd_error (effects (run (onBlur p) st v)) =
       Some (CallSetErrorState (new_Error no_destination_message))
  /\ render p (next (run (onBlur p) st v)) =
       Throws (new_Error no_destination_message)
  /\ filter is_onError (effects (run (onBlur p) st v)) =
       match onSave p with
       | Some cb =>
           match cb None (updatedResource p t v) with
           | Returns _ => []
           | Throws e =>
               match onError p with
               | Some _ => [CallOnError e]
               | None => []
               end
           end
       | None => []
       end.
Proof.
  intros Hauto Hneq Ht Hd Hdest Hpending.
  rewrite (onBlur_autosave p st v Hauto).
  destruct (saveHandler_no_destination p st v t d Hneq Ht Hd Hdest)
    as [Heff Hnext].
  rewrite Heff, Hnext.
  rewrite (save_step_no_destination p d _ st Hdest Hpending).
  cbn [effects next result hd_error].
  repeat split.
  - rewrite count_cons. cbn [is_write].
    now rewrite guarded_onSave_count.
  - rewrite guarded_onSave_effects.
    destruct (onSave p) as [cb |]; [| reflexivity]. cbn.
    destruct (cb None (updatedResource p t v)) as [[] | e]; [reflexivity |].
    now destruct (onError p).
Qed.


(** C7: a change event on the input only sets the [text] state to the new
    input value: the handler's one call is [setText], the writer is not
    invoked, and the initial value, the dataset and the rest of the state
    are as before. *)
Theorem change_updates_text_only (p : Props) (st : State) (v : string) :
  effects (run (onChange p) st v) = [CallSetText v]
  /\ count is_write (effects (run (onChange p) st v)) = 0
  /\ text (next (run (onChange p) st v)) = Some v
  /\ initialValue (next (run (onChange p) st v)) = initialValue st
  /\ contextDataset (next (run (onChange p) st v)) = contextDataset st
  /\ dataset p (next (run (onChange p) st v)) = dataset p st
  /\ pendingThrow (next (run (onChange p) st v)) = pendingThrow st
  /\ result (run (onChange p) st v) = Returns tt.
Proof.
  assert (Hrun : run (onChange p) st v =
                   mkRun [CallSetText v] (with_text (Some v) st) (Returns tt))
    by reflexivity.
  rewrite Hrun. cbn [effects next result with_text].
  repeat split.
Qed.

(** C9: an autosave-triggered save with neither a truthy [saveDatasetTo] nor
    resource info on the dataset still invokes a provided [onSave], once,
    with an undefined saved dataset and the updated thing, although the
    writer was never invoked. *)
Theorem no_destination_still_calls_onSave (p : Props) (st : State)
  (v : string) (t : Thing) (d : SolidDataset)
  (cb : option SolidDataset -> Thing -> Completion Err unit) :
  autosave p = true ->
  strict_neq (initialValue st) v = true ->
  thing p = Some t ->
  dataset p st = Some d ->
  destination p d = None ->
  onSave p = Some cb ->
  filter is_onSave (effects (run (onBlur p) st v)) =
    [CallOnSave None (updatedResource p t v)]
  /\ count is_write (effects (run (onBlur p) st v)) = 0.
Proof.
  intros Hauto Hneq Ht Hd Hdest Hcb.
  rewrite (onBlur_autosave p st v Hauto).
  destruct (saveHandler_no_destination p st v t d Hneq Ht Hd Hdest)
    as [Heff _].
  rewrite Heff. split.
  - rewrite guarded_onSave_effects, Hcb. cbn.
    destruct (cb None (updatedResource p t v)) as [[] | e]; [reflexivity |].
    now destruct (onError p).
  - rewrite count_cons. cbn [is_write].
    now rewrite guarded_onSave_count.
Qed.

(** C10: a blur while the thing or the dataset is absent does nothing, also
    with autosave on and a changed value: no call at all (no write, no
    [onSave], no [onError]), and the state is the same. *)
Theorem blur_without_thing_or_dataset_is_noop (p : Props) (st : State)
  (v : string) :
  thing p = None \/ dataset p st = None ->
  run (onBlur p) st v = mkRun [] st (Returns tt).
Proof.
  intros Habsent. apply onBlur_skips. now right.
Qed.

End TextProperties.

(** * The size constraint of the Video field *)

(** C8: on a file-input change of the Video field with autosave enabled, a
    file whose size exceeds [maxSize] does not reach the writer
    [overwriteFile]; nothing is called and the preview stays. *)
Theorem oversized_file_is_not_written {Blob Err : Type} (size : Blob -> N)
  (overwriteFile : string -> Blob -> Settled Blob Err)
  (createObjectURL : Blob -> string)
  (p : Video.Props) (st : Video.State) (file : Blob) (m : N) :
  Video.autosave p = true ->
  Video.maxSize p = Some m ->
  (m < size file)%N ->
  filter Video.is_write
    (fst (Video.handleChange size overwriteFile createObjectURL p st file)) = []
  /\ Video.handleChange size overwriteFile createObjectURL p st file = ([], st).
Proof.
  intros Hauto Hmax Hsize.
  assert (Hno : Video.satisfies_size_constraint size p file = false).
  { unfold Video.satisfies_size_constraint. rewrite Hmax.
    apply N.leb_gt, Hsize. }
  unfold Video.handleChange. rewrite Hauto, Hno. now cbn.
Qed.

(** * The properties on the pod in miniature *)

Section OnTheDemoPod.

Import Demo.

(** Focus on "Alice", blur on "Alice": nothing is called. *)
Lemma blur_unchanged_calls_nothing_witness :
  initialValue (edited (Some fetched_dataset) "Alice") = Some "Alice"
  /\ effects (run (onBlur (editing true)) (edited (Some fetched_dataset) "Alice")
                "Alice") = [].
Proof.
  split; [reflexivity |].
  apply (blur_unchanged_calls_nothing (SC := pod) (editing true)
           (edited (Some fetched_dataset) "Alice") "Alice").
  reflexivity.
Defined.

(** C2 as stated fails on a dataset that was never saved and has no
    [saveDatasetTo]: autosave is on and the value changed, and the writer is
    not invoked at all. *)
Lemma blur_changed_without_destination_writes_nothing :
  autosave (editing true) = true
  /\ strict_neq (initialValue (edited (Some new_dataset) "Bob")) "Bob" = true
  /\ count is_write
       (effects (run (onBlur (editing true)) (edited (Some new_dataset) "Bob") "Bob"))
     <> 1.
Proof.
  repeat split; try reflexivity. cbn. discriminate.
Defined.

(** Focus on "Alice", type "Bob", blur, on a fetched dataset: one write. *)
Lemma blur_changed_writes_once_first_witness :
  count is_write
    (effects (run (onBlur (editing true)) (edited (Some fetched_dataset) "Bob") "Bob"))
  = 1.
Proof.
  exact (proj1 (blur_changed_writes_once_first (SC := pod) (editing true)
                  (edited (Some fetched_dataset) "Bob") "Bob" alice
                  fetched_dataset eq_refl eq_refl eq_refl eq_refl)).
Defined.

(** The server refuses the write: [onError] hears of it, the state stays. *)
Lemma write_failure_reports_once_witness :
  filter is_onError
    (effects (run (saveHandler (editing false))
                (edited (Some fetched_dataset) "Bob") "Bob"))
  = [@CallOnError pod "403 Forbidden"]
  /\ next (run (saveHandler (editing false))
             (edited (Some fetched_dataset) "Bob") "Bob")
     = edited (Some fetched_dataset) "Bob".
Proof.
  pose proof (write_failure_reports_once (SC := pod) (editing false)
                (edited (Some fetched_dataset) "Bob") "Bob" alice fetched_dataset
                (AsUrlString "https://pod.example/profile") "403 Forbidden"
                eq_refl eq_refl eq_refl eq_refl eq_refl)
    as (_ & Hreport & _ & _ & Hnext & _).
  split; [exact Hreport | exact Hnext].
Defined.

(** C4 as stated fails when the dataset is passed as the [solidDataset]
    prop: the write succeeds, [setDataset] is called with the saved
    dataset, and the dataset the component reads is still the prop. *)
Lemma write_success_keeps_own_dataset :
  saveSolidDatasetAt (SolidClient := pod)
    (AsUrlString "https://pod.example/profile")
    (mkDemoDataset (Some "https://pod.example/profile")
       [[(iri name_property, "Bob", None)]; alice])
    true
  = Fulfilled (mkDemoDataset (Some "https://pod.example/profile")
                 [[(iri name_property, "Bob", None)]; alice])
  /\ filter is_write
       (effects (run (saveHandler (editing_own_dataset true))
                   (edited None "Bob") "Bob"))
     = [@CallSaveSolidDatasetAt pod
          (AsUrlString "https://pod.example/profile")
          (mkDemoDataset (Some "https://pod.example/profile")
             [[(iri name_property, "Bob", None)]; alice])
          true]
  /\ dataset (editing_own_dataset true)
       (next (run (saveHandler (editing_own_dataset true))
                (edited None "Bob") "Bob"))
     = Some fetched_dataset
  /\ dataset (editing_own_dataset true)
       (next (run (saveHandler (editing_own_dataset true))
                (edited None "Bob") "Bob"))
     <> Some (mkDemoDataset (Some "https://pod.example/profile")
                [[(iri name_property, "Bob", None)]; alice]).
Proof.
  repeat split. cbn. discriminate.
Defined.

(** The server accepts the write: the dataset read from the context is what
    it sent back. *)
Lemma write_success_updates_and_notifies_witness :
  dataset (editing true)
    (next (run (saveHandler (editing true))
             (edited (Some fetched_dataset) "Bob") "Bob"))
  = Some (mkDemoDataset (Some "https://pod.example/profile")
            [[(iri name_property, "Bob", None)]; alice]).
Proof.
  exact (proj1 (proj2
    (write_success_updates_and_notifies (SC := pod) (editing true)
       (edited (Some fetched_dataset) "Bob") "Bob" alice fetched_dataset
       (AsUrlString "https://pod.example/profile")
       (mkDemoDataset (Some "https://pod.example/profile")
          [[(iri name_property, "Bob", None)]; alice])
       eq_refl eq_refl eq_refl eq_refl eq_refl))).
Defined.

(** C5 as stated fails on a dataset that was never saved: [onError] is
    provided and is not invoked, and the error leaves the component through
    its next render. *)
Lemma no_destination_is_not_reported_to_onError :
  autosave (editing true) = true
  /\ onError (editing true) = Some quiet_onError
  /\ destination (editing true) new_dataset = None
  /\ ~ (exists e,
          In (CallOnError e)
            (effects (run (onBlur (editing true))
                        (edited (Some new_dataset) "Bob") "Bob")))
  /\ render (editing true)
       (next (run (onBlur (editing true)) (edited (Some new_dataset) "Bob") "Bob"))
     = Throws (@new_Error pod no_destination_message).
Proof.
  repeat split.
  intros [e Hin]. cbn in Hin.
  destruct Hin as [Hin | [Hin | []]]; discriminate Hin.
Defined.

(** The same blur, as the code has it. *)
Lemma no_destination_throws_in_render_witness :
  render (editing true)
    (next (run (onBlur (editing true)) (edited (Some new_dataset) "Bob") "Bob"))
  = Throws (@new_Error pod no_destination_message)
  /\ filter is_onError
       (effects (run (onBlur (editing true)) (edited (Some new_dataset) "Bob") "Bob"))
     = [].
Proof.
  pose proof (no_destination_throws_in_render (SC := pod) (editing true)
                (edited (Some new_dataset) "Bob") "Bob" alice new_dataset
                eq_refl eq_refl eq_refl eq_refl eq_refl eq_refl)
    as (_ & _ & Hrender & HonError).
  split; [exact Hrender | exact HonError].
Defined.



(** A dataset that was never saved: [onSave] gets [undefined]. *)
Lemma no_destination_still_calls_onSave_witness :
  filter is_onSave
    (effects (run (onBlur (editing true)) (edited (Some new_dataset) "Bob") "Bob"))
  = [@CallOnSave pod None [(iri name_property, "Bob", None)]].
Proof.
  apply (no_destination_still_calls_onSave (SC := pod) (editing true)
           (edited (Some new_dataset) "Bob") "Bob" alice new_dataset quiet_onSave);
    reflexivity.
Defined.

(** Autosave on, value changed, no dataset: nothing happens. *)
Lemma blur_without_thing_or_dataset_is_noop_witness :
  autosave (editing true) = true
  /\ strict_neq (initialValue (edited None "Bob")) "Bob" = true
  /\ run (onBlur (editing true)) (edited None "Bob") "Bob"
     = mkRun [] (edited None "Bob") (Returns tt).
Proof.
  split; [reflexivity | split; [reflexivity |]].
  apply (blur_without_thing_or_dataset_is_noop (SC := pod) (editing true)
           (edited None "Bob") "Bob").
  right; reflexivity.
Defined.

(** A file of 5 against a maximum of 0. *)
Lemma oversized_file_is_not_written_witness :
  Video.handleChange (fun file : N => file) accept_file object_url video
    (Video.mkState None) 5%N
  = ([], Video.mkState None).
Proof.
  apply (oversized_file_is_not_written (fun file : N => file) accept_file
           object_url video (Video.mkState None) 5%N 0%N);
    reflexivity.
Defined.

End OnTheDemoPod.

(** * Further properties of the Text field *)

Section TextSaveHandler.

Context `{SC : SolidClient}.

(** ** Every path through [saveHandler] *)

Lemma run_eta {A : Type} (r : Run A) :
  r = mkRun (effects r) (next r) (result r).
Proof.
  now destruct r.
Qed.

(** The end of the [try] block throws only what [onError] threw. *)
Lemma guarded_onSave_result (p : Props) (saved : option SolidDataset)
  (updated : Thing) (s : State) (e : Err) :
  result (try_catch (notify_onSave p saved updated) (notify_onError p) s)
    = Throws e ->
  exists cb e0,
    onError p = Some cb
    /\ cb e0 = Throws e
    /\ In (CallOnError e0)
         (effects
            (try_catch (notify_onSave p saved updated) (notify_onError p) s)).
Proof.
  rewrite guarded_onSave_effects.
  unfold try_catch, notify_onSave, notify_onError, call_onSave, call_onError.
  destruct (onSave p) as [cbs |]; cbn; [| discriminate].
  destruct (cbs saved updated) as [[] | e0] eqn:Hcbs; cbn; [discriminate |].
  destruct (onError p) as [cbe |]; cbn; [| discriminate].
  intros Hthrown. exists cbe, e0. cbn. auto.
Qed.

Lemma notify_onError_result (p : Props) (e0 : Err) (s : State) (e : Err) :
  result (notify_onError p e0 s) = Throws e ->
  exists cb, onError p = Some cb /\ cb e0 = Throws e.
Proof.
  unfold notify_onError, call_onError.
  destruct (onError p) as [cb |]; cbn; [| discriminate].
  intros Hthrown. now exists cb.
Qed.

(** Without a destination a throw is queued for the next render. *)
Lemma save_step_no_destination_pending (p : Props) (d : SolidDataset)
  (updated : Thing) (s : State) :
  destination p d = None ->
  pendingThrow (next (save_step p d updated s)) <> None.
Proof.
  unfold destination, save_step. intros Hdest.
  destruct (as_truthy_location (saveDatasetTo p)); [discriminate |].
  destruct (hasResourceInfo d); [discriminate |].
  unfold bind, call_setErrorState_throwing, perform; cbn.
  destruct (pendingThrow s) eqn:Hpending; cbn.
  - now rewrite Hpending.
  - discriminate.
Qed.

(** The guard fails; or the writer is called and fulfils; or it is called
    and rejects; or there is no destination. *)
Lemma saveHandler_paths (p : Props) (st : State) (v : string) :
  run (saveHandler p) st v = mkRun [] st (Returns tt)
  \/ (exists t d url saved,
        thing p = Some t /\ dataset p st = Some d
        /\ saveSolidDatasetAt url (setThing d (updatedResource p t v)) (fetch p)
           = Fulfilled saved
        /\ run (saveHandler p) st v =
           mkRun
             (CallSaveSolidDatasetAt url (setThing d (updatedResource p t v))
                (fetch p)
              :: CallSetDataset saved
              :: effects
                   (try_catch
                      (notify_onSave p (Some saved) (updatedResource p t v))
                      (notify_onError p) (with_contextDataset (Some saved) st)))
             (with_contextDataset (Some saved) st)
             (result
                (try_catch
                   (notify_onSave p (Some saved) (updatedResource p t v))
                   (notify_onError p) (with_contextDataset (Some saved) st))))
  \/ (exists t d url e,
        thing p = Some t /\ dataset p st = Some d
        /\ saveSolidDatasetAt url (setThing d (updatedResource p t v)) (fetch p)
           = Rejected e
        /\ run (saveHandler p) st v =
           mkRun
             (CallSaveSolidDatasetAt url (setThing d (updatedResource p t v))
                (fetch p)
              :: effects (notify_onError p e st))
             st (result (notify_onError p e st)))
  \/ (exists t d s',
        thing p = Some t /\ dataset p st = Some d
        /\ text s' = text st /\ initialValue s' = initialValue st
        /\ contextDataset s' = contextDataset st /\ pendingThrow s' <> None
        /\ run (saveHandler p) st v =
           mkRun
             (CallSetErrorState (new_Error no_destination_message)
              :: effects
                   (try_catch (notify_onSave p None (updatedResource p t v))
                      (notify_onError p) s'))
             s'
             (result
                (try_catch (notify_onSave p None (updatedResource p t v))
                   (notify_onError p) s'))).
Proof.
  destruct (strict_neq (initialValue st) v) eqn:Hneq;
    [| left; apply saveHandler_skips; now left].
  destruct (thing p) as [t |] eqn:Ht;
    [| left; apply saveHandler_skips; now (right; left)].
  destruct (dataset p st) as [d |] eqn:Hd;
    [| left; apply saveHandler_skips; now (right; right)].
  right.
  rewrite (saveHandler_enters p st v t d Hneq Ht Hd).
  destruct (destination p d) as [url |] eqn:Hdest.
  - destruct (saveSolidDatasetAt url (setThing d (updatedResource p t v))
                (fetch p)) as [saved | e] eqn:Hsave.
    + left. exists t, d, url, saved. repeat split; trivial.
      pose proof (save_step_fulfilled p d _ url saved st Hdest Hsave) as Hstep.
      rewrite (try_catch_bind_returns _ _ _ st (Some saved))
        by now rewrite Hstep.
      rewrite Hstep. cbn [effects next result app].
      now rewrite guarded_onSave_state.
    + right; left. exists t, d, url, e. repeat split; trivial.
      pose proof (save_step_rejected p d _ url e st Hdest Hsave) as Hstep.
      rewrite (try_catch_bind_throws _ _ _ st e) by now rewrite Hstep.
      rewrite Hstep. cbn [effects next result app].
      now rewrite notify_onError_state.
  - right; right.
    destruct (save_step_no_destination_effects p d (updatedResource p t v) st
                Hdest) as (Heff & Hres & Hdata & Htext & Hinit).
    exists t, d, (next (save_step p d (updatedResource p t v) st)).
    repeat split; trivial.
    { now apply save_step_no_destination_pending. }
    rewrite (try_catch_bind_returns _ _ _ st None Hres).
    rewrite Heff. cbn [effects next result app].
    now rewrite guarded_onSave_state.
Qed.

(** A log without [setDataset] has none ahead of the writer. *)
Lemma no_update_without_update (l : list Effect) :
  count is_setDataset l = 0 -> no_update_before_write l = true.
Proof.
  induction l as [| x l IH]; [reflexivity |].
  rewrite count_cons. cbn [no_update_before_write].
  destruct (is_write x); [reflexivity |].
  destruct (is_setDataset x); [discriminate |]. exact IH.
Qed.

(** The end of the [try] block calls each callback at most once and nothing
    else. *)
Lemma guarded_onSave_bounds (p : Props) (saved : option SolidDataset)
  (updated : Thing) (s : State) :
  count is_onSave
    (effects (try_catch (notify_onSave p saved updated) (notify_onError p) s))
  <= 1
  /\ count is_onError
       (effects
          (try_catch (notify_onSave p saved updated) (notify_onError p) s))
     <= 1.
Proof.
  rewrite guarded_onSave_effects.
  destruct (onSave p) as [cb |]; [| cbn; lia].
  destruct (cb saved updated) as [[] | e]; [cbn; lia |].
  destruct (onError p); cbn; lia.
Qed.

(** The dataset read is the same while the context's is. *)
Lemma dataset_of_context (p : Props) (s s' : State) :
  contextDataset s' = contextDataset s -> dataset p s' = dataset p s.
Proof.
  intros Hsame. unfold dataset. now rewrite Hsame.
Qed.

(** X1: [saveHandler] never touches the edit buffer [text] or the snapshot
    [initialValue], and the dataset the component reads is either left as it
    was or is what a call of the writer was fulfilled with. *)
Theorem saveHandler_keeps_edit_state (p : Props) (st : State) (v : string) :
  text (next (run (saveHandler p) st v)) = text st
  /\ initialValue (next (run (saveHandler p) st v)) = initialValue st
  /\ (dataset p (next (run (saveHandler p) st v)) = dataset p st
      \/ exists url d saved,
           In (CallSaveSolidDatasetAt url d (fetch p))
             (effects (run (saveHandler p) st v))
           /\ saveSolidDatasetAt url d (fetch p) = Fulfilled saved
           /\ dataset p (next (run (saveHandler p) st v)) = Some saved).
Proof.
  destruct (saveHandler_paths p st v)
    as [Hrun | [(t & d & url & saved & _ & _ & Hsave & Hrun)
       | [(t & d & url & e & _ & _ & _ & Hrun)
       | (t & d & s' & _ & _ & Htext & Hinit & Hdata & _ & Hrun)]]];
    rewrite Hrun; cbn [effects next result].
  - auto.
  - repeat split; trivial.
    destruct (solidDataset p) as [own |] eqn:Hown.
    + left. unfold dataset. now rewrite Hown.
    + right. exists url, (setThing d (updatedResource p t v)), saved.
      repeat split; trivial; [apply in_eq |].
      unfold dataset. now rewrite Hown.
  - auto.
  - repeat split; trivial. left. now apply dataset_of_context.
Qed.

(** X2: whatever the props, the state and the input value, one run of
    [saveHandler] calls the writer at most once, [setDataset] at most as
    often as the writer and never ahead of it, [onSave] and [onError] at most
    once each, and never both the writer and the throwing state setter. *)
Theorem saveHandler_call_bounds (p : Props) (st : State) (v : string) :
  count is_write (effects (run (saveHandler p) st v)) <= 1
  /\ count is_setDataset (effects (run (saveHandler p) st v))
     <= count is_write (effects (run (saveHandler p) st v))
  /\ no_update_before_write (effects (run (saveHandler p) st v)) = true
  /\ count is_onSave (effects (run (saveHandler p) st v)) <= 1
  /\ count is_onError (effects (run (saveHandler p) st v)) <= 1
  /\ count is_write (effects (run (saveHandler p) st v))
     + count is_setErrorState (effects (run (saveHandler p) st v)) <= 1.
Proof.
  destruct (saveHandler_paths p st v)
    as [Hrun | [(t & d & url & saved & _ & _ & _ & Hrun)
       | [(t & d & url & e & _ & _ & _ & Hrun)
       | (t & d & s' & _ & _ & _ & _ & _ & _ & Hrun)]]];
    rewrite Hrun; cbn [effects next result].
  - cbn. repeat split; lia.
  - destruct (guarded_onSave_bounds p (Some saved) (updatedResource p t v)
                (with_contextDataset (Some saved) st)) as [HonSave HonError].
    pose proof (guarded_onSave_count is_write p (Some saved)
                  (updatedResource p t v) (with_contextDataset (Some saved) st)
                  (fun _ _ => eq_refl) (fun _ => eq_refl)) as Hwrite.
    pose proof (guarded_onSave_count is_setDataset p (Some saved)
                  (updatedResource p t v) (with_contextDataset (Some saved) st)
                  (fun _ _ => eq_refl) (fun _ => eq_refl)) as Hupdate.
    pose proof (guarded_onSave_count is_setErrorState p (Some saved)
                  (updatedResource p t v) (with_contextDataset (Some saved) st)
                  (fun _ _ => eq_refl) (fun _ => eq_refl)) as Hthrow.
    rewrite !count_cons.
    cbn [is_write is_setDataset is_onSave is_onError is_setErrorState
         no_update_before_write].
    repeat split; try reflexivity; lia.
  - rewrite notify_onError_effects, !count_cons.
    cbn [is_write is_setDataset is_onSave is_onError is_setErrorState
         no_update_before_write].
    destruct (onError p); cbn; repeat split; try reflexivity; lia.
  - destruct (guarded_onSave_bounds p None (updatedResource p t v) s')
      as [HonSave HonError].
    pose proof (guarded_onSave_count is_write p None
                  (updatedResource p t v) s'
                  (fun _ _ => eq_refl) (fun _ => eq_refl)) as Hwrite.
    pose proof (guarded_onSave_count is_setDataset p None
                  (updatedResource p t v) s'
                  (fun _ _ => eq_refl) (fun _ => eq_refl)) as Hupdate.
    pose proof (guarded_onSave_count is_setErrorState p None
                  (updatedResource p t v) s'
                  (fun _ _ => eq_refl) (fun _ => eq_refl)) as Hthrow.
    rewrite !count_cons.
    cbn [is_write is_setDataset is_onSave is_onError is_setErrorState
         no_update_before_write].
    rewrite (no_update_without_update _ Hupdate).
    repeat split; try reflexivity; lia.
Qed.

(** X3: the promise of [saveHandler] is rejected only when [onError] itself
    throws: then [onError] was called, and the rejection is what it threw. *)
Theorem saveHandler_rejects_only_from_onError (p : Props) (st : State)
  (v : string) (e : Err) :
  result (run (saveHandler p) st v) = Throws e ->
  exists cb e0,
    onError p = Some cb
    /\ cb e0 = Throws e
    /\ In (CallOnError e0) (effects (run (saveHandler p) st v)).
Proof.
  destruct (saveHandler_paths p st v)
    as [Hrun | [(t & d & url & saved & _ & _ & _ & Hrun)
       | [(t & d & url & e1 & _ & _ & _ & Hrun)
       | (t & d & s' & _ & _ & _ & _ & _ & _ & Hrun)]]];
    rewrite Hrun; cbn [effects next result]; intros Hthrown.
  - discriminate Hthrown.
  - destruct (guarded_onSave_result _ _ _ _ _ Hthrown)
      as (cb & e0 & Hcb & Hthrows & Hin).
    exists cb, e0. repeat split; trivial. now do 2 right.
  - destruct (notify_onError_result _ _ _ _ Hthrown) as (cb & Hcb & Hthrows).
    exists cb, e1. repeat split; trivial. right.
    rewrite notify_onError_effects, Hcb. apply in_eq.
  - destruct (guarded_onSave_result _ _ _ _ _ Hthrown)
      as (cb & e0 & Hcb & Hthrows & Hin).
    exists cb, e0. repeat split; trivial. now right.
Qed.

(** ** Where the write goes and what is written *)

Lemma filter_nil_of_count (f : Effect -> bool) (l : list Effect) :
  count f l = 0 -> filter f l = [].
Proof.
  unfold count. apply length_zero_iff_nil.
Qed.

(** With a destination, the only call of the writer is the one to it, with
    the dataset in which the thing is replaced by its update. *)
Lemma saveHandler_writes_to (p : Props) (st : State) (v : string) (t : Thing)
  (d : SolidDataset) (url : UrlOrString) :
  strict_neq (initialValue st) v = true ->
  thing p = Some t ->
  dataset p st = Some d ->
  destination p d = Some url ->
  filter is_write (effects (run (saveHandler p) st v)) =
    [CallSaveSolidDatasetAt url (setThing d (updatedResource p t v)) (fetch p)].
Proof.
  intros Hneq Ht Hd Hdest.
  rewrite (saveHandler_enters p st v t d Hneq Ht Hd).
  destruct (saveSolidDatasetAt url (setThing d (updatedResource p t v))
              (fetch p)) as [saved | e] eqn:Hsave.
  - pose proof (save_step_fulfilled p d _ url saved st Hdest Hsave) as Hstep.
    rewrite (try_catch_bind_returns _ _ _ st (Some saved))
      by now rewrite Hstep.
    rewrite Hstep. cbn [effects next result app filter is_write].
    now rewrite filter_nil_of_count by now apply guarded_onSave_count.
  - pose proof (save_step_rejected p d _ url e st Hdest Hsave) as Hstep.
    rewrite (try_catch_bind_throws _ _ _ st e) by now rewrite Hstep.
    rewrite Hstep. cbn [effects next result app filter is_write].
    rewrite notify_onError_effects. now destruct (onError p).
Qed.

(** X4: when the write succeeds and [onSave] throws, [setDataset] was
    already called with the saved dataset (the dataset read from the context
    is the saved one, a [solidDataset] prop stays as it is), [onError] (if
    provided) is called with what [onSave] threw, and without an [onError]
    the throw is dropped: the handler's promise is fulfilled. *)
Theorem onSave_throw_reaches_onError (p : Props) (st : State) (v : string)
  (t : Thing) (d : SolidDataset) (url : UrlOrString) (saved : SolidDataset)
  (cb : option SolidDataset -> Thing -> Completion Err unit) (e : Err) :
  strict_neq (initialValue st) v = true ->
  thing p = Some t ->
  dataset p st = Some d ->
  destination p d = Some url ->
  saveSolidDatasetAt url (setThing d (updatedResource p t v)) (fetch p)
    = Fulfilled saved ->
  onSave p = Some cb ->
  cb (Some saved) (updatedResource p t v) = Throws e ->
  effects (run (saveHandler p) st v) =
    CallSaveSolidDatasetAt url (setThing d (updatedResource p t v)) (fetch p)
    :: CallSetDataset saved
    :: CallOnSave (Some saved) (updatedResource p t v)
    :: match onError p with
       | Some _ => [CallOnError e]
       | None => []
       end
  /\ dataset p (next (run (saveHandler p) st v)) =
       match solidDataset p with
       | Some own => Some own
       | None => Some saved
       end
  /\ (onError p = None -> result (run (saveHandler p) st v) = Returns tt).
Proof.
  intros Hneq Ht Hd Hdest Hsave Hcb Hthrows.
  pose proof (save_step_fulfilled p d _ url saved st Hdest Hsave) as Hstep.
  rewrite (saveHandler_enters p st v t d Hneq Ht Hd).
  rewrite (try_catch_bind_returns _ _ _ st (Some saved)) by now rewrite Hstep.
  rewrite Hstep. cbn [effects next result app].
  rewrite guarded_onSave_state, guarded_onSave_effects, Hcb, Hthrows.
  split; [reflexivity |]. split.
  { unfold dataset. now destruct (solidDataset p). }
  intros Hnone.
  unfold try_catch, notify_onSave, notify_onError, call_onSave.
  rewrite Hcb. cbn. now rewrite Hthrows, Hnone.
Qed.

(** X5: a truthy [saveDatasetTo] is where the dataset is written, whether or
    not the dataset has a source URL of its own. *)
Theorem saveDatasetTo_takes_precedence (p : Props) (st : State) (v : string)
  (t : Thing) (d : SolidDataset) (to : UrlOrString) :
  strict_neq (initialValue st) v = true ->
  thing p = Some t ->
  dataset p st = Some d ->
  saveDatasetTo p = Some to ->
  truthy_location (Some to) = true ->
  filter is_write (effects (run (saveHandler p) st v)) =
    [CallSaveSolidDatasetAt to (setThing d (updatedResource p t v)) (fetch p)].
Proof.
  intros Hneq Ht Hd Hto Htruthy.
  apply saveHandler_writes_to; trivial.
  unfold destination, as_truthy_location. now rewrite Hto, Htruthy.
Qed.

(** X6: without a truthy [saveDatasetTo] (none, or the empty string), a
    dataset with resource info is written back to its own source URL. *)
Theorem falsy_saveDatasetTo_uses_source_url (p : Props) (st : State)
  (v : string) (t : Thing) (d : SolidDataset) :
  strict_neq (initialValue st) v = true ->
  thing p = Some t ->
  dataset p st = Some d ->
  truthy_location (saveDatasetTo p) = false ->
  hasResourceInfo d = true ->
  filter is_write (effects (run (saveHandler p) st v)) =
    [CallSaveSolidDatasetAt (AsUrlString (getSourceUrl d))
       (setThing d (updatedResource p t v)) (fetch p)].
Proof.
  intros Hneq Ht Hd Hfalsy Hinfo.
  apply saveHandler_writes_to; trivial.
  unfold destination, as_truthy_location. now rewrite Hfalsy, Hinfo.
Qed.

(** X7: the thing that is written carries the new value set with
    [setStringWithLocale] when the [locale] prop is a non-empty string, and
    with [setStringNoLocale] when it is the empty string. *)
Theorem locale_selects_setter (p : Props) (st : State) (v : string)
  (t : Thing) (d : SolidDataset) (url : UrlOrString) (l : string) :
  strict_neq (initialValue st) v = true ->
  thing p = Some t ->
  dataset p st = Some d ->
  destination p d = Some url ->
  locale p = Some l ->
  filter is_write (effects (run (saveHandler p) st v)) =
    [CallSaveSolidDatasetAt url
       (setThing d
          (if truthy_string l
           then setStringWithLocale t (property p) v l
           else setStringNoLocale t (property p) v))
       (fetch p)].
Proof.
  intros Hneq Ht Hd Hdest Hlocale.
  rewrite (saveHandler_writes_to p st v t d url Hneq Ht Hd Hdest).
  unfold updatedResource, as_truthy_string. rewrite Hlocale. cbn.
  now destruct (truthy_string l).
Qed.

End TextSaveHandler.

(** * What is rendered, and sessions of events *)

Section TextSessions.

Context `{SC : SolidClient}.

Lemma or_empty_some (s : string) : or_empty (Some s) = s.
Proof.
  now destruct s.
Qed.

(** X8: with no throw queued, Text renders the loading text exactly when
    both the thing and the dataset are missing, and renders nothing at all
    (an empty fragment) exactly when one of the two is missing and the other
    is there, whatever [edit] is. *)
Theorem render_loading_and_empty (p : Props) (st : State) :
  pendingThrow st = None ->
  (render p st = Returns (element (h3 "fetching data in progress"))
   <-> thing p = None /\ dataset p st = None)
  /\ (render p st = Returns (fragment [])
      <-> (thing p = None /\ dataset p st <> None)
          \/ (thing p <> None /\ dataset p st = None)).
Proof.
  intros Hpending. unfold render. rewrite Hpending.
  destruct (thing p) as [t |], (dataset p st) as [d |], (edit p); cbn;
    (split; split; intros H; try discriminate H; try reflexivity;
     intuition congruence).
Qed.

(** The input is there exactly in edit mode with thing and dataset present
    and no throw queued, and it shows [text || ""]. *)
Lemma input_value_inv (p : Props) (st : State) (shown : string) :
  input_value p st = Some shown ->
  pendingThrow st = None /\ edit p = true
  /\ (exists t, thing p = Some t) /\ (exists d, dataset p st = Some d)
  /\ shown = or_empty (text st).
Proof.
  unfold input_value, render.
  destruct (pendingThrow st); [discriminate |].
  destruct (thing p), (dataset p st), (edit p); cbn; try discriminate.
  intros [= <-]. repeat split; eauto.
Qed.

Lemma input_value_intro (p : Props) (st : State) (t : Thing)
  (d : SolidDataset) :
  pendingThrow st = None ->
  edit p = true ->
  thing p = Some t ->
  dataset p st = Some d ->
  input_value p st = Some (or_empty (text st)).
Proof.
  intros Hpending Hedit Ht Hd. unfold input_value.
  now rewrite (render_input p st t d Hpending Hedit Ht Hd).
Qed.

(** X9: in edit mode the input of the first render holds the resolved value
    unchanged, and the empty string when no value was resolved. *)
Theorem edit_mount_prepopulates_input (p : Props) (t : Thing)
  (d : SolidDataset) :
  edit p = true ->
  thing p = Some t ->
  input_value p (mount p (Some d)) =
    Some match value p with
         | Some s => s
         | None => EmptyString
         end.
Proof.
  intros Hedit Ht.
  assert (Hd : exists d', dataset p (mount p (Some d)) = Some d').
  { unfold dataset. destruct (solidDataset p); cbn; eauto. }
  destruct Hd as [d' Hd].
  rewrite (input_value_intro p (mount p (Some d)) t d' eq_refl Hedit Ht Hd).
  cbn [mount text].
  destruct (value p) as [s |]; [now rewrite or_empty_some | reflexivity].
Qed.

(** ** One event *)

Lemma dispatch_without_input (p : Props) (st : State) (ev : InputEvent) :
  input_value p st = None ->
  dispatch p st ev = mkRun [] st (Returns tt).
Proof.
  intros Hnone. unfold dispatch. now rewrite Hnone.
Qed.

Lemma play_without_input (p : Props) (st : State) (evs : list InputEvent) :
  input_value p st = None ->
  play p st evs = ([], st).
Proof.
  intros Hnone. induction evs as [| ev evs IH]; [reflexivity |].
  cbn [play]. rewrite (dispatch_without_input p st ev Hnone).
  cbn [effects next]. now rewrite IH.
Qed.

Lemma input_value_pending (p : Props) (st : State) :
  pendingThrow st <> None -> input_value p st = None.
Proof.
  intros Hpending. unfold input_value, render.
  destruct (pendingThrow st); [reflexivity | contradiction].
Qed.

(** What one event calls, by kind of call. *)
Lemma dispatch_bounds (p : Props) (st : State) (ev : InputEvent) :
  count is_write (effects (dispatch p st ev)) <= (if is_blur ev then 1 else 0)
  /\ count is_setDataset (effects (dispatch p st ev))
     <= count is_write (effects (dispatch p st ev))
  /\ count is_onSave (effects (dispatch p st ev))
     <= (if is_blur ev then 1 else 0)
  /\ count is_onError (effects (dispatch p st ev))
     <= (if is_blur ev then 1 else 0)
  /\ (count is_setErrorState (effects (dispatch p st ev)) = 0
      \/ count is_setErrorState (effects (dispatch p st ev)) = 1
         /\ pendingThrow (next (dispatch p st ev)) <> None).
Proof.
  unfold dispatch.
  destruct (input_value p st) as [shown |];
    [| destruct ev; cbn; repeat split; auto].
  destruct ev as [| typed |]; cbn [is_blur];
    [cbn; repeat split; auto | cbn; repeat split; auto |].
  destruct (autosave p) eqn:Hauto;
    [rewrite (onBlur_autosave p st shown Hauto)
    | unfold run, onBlur; rewrite Hauto; cbn; repeat split; auto].
  pose proof (saveHandler_call_bounds p st shown)
    as (Hwrite & Hupdate & _ & HonSave & HonError & Hexclusive).
  split; [exact Hwrite |]. split; [exact Hupdate |].
  split; [exact HonSave |]. split; [exact HonError |].
  destruct (saveHandler_paths p st shown)
    as [Hrun | [(t & d & url & saved & _ & _ & _ & Hrun)
       | [(t & d & url & e & _ & _ & _ & Hrun)
       | (t & d & s' & _ & _ & _ & _ & _ & Hpending & Hrun)]]];
    rewrite Hrun; cbn [effects next result].
  - now left.
  - left. rewrite !count_cons. cbn [is_setErrorState].
    now rewrite guarded_onSave_count.
  - left. rewrite count_cons, notify_onError_effects. cbn [is_setErrorState].
    now destruct (onError p).
  - right. rewrite count_cons. cbn [is_setErrorState].
    now rewrite guarded_onSave_count.
Qed.

(** ** Sessions *)

(** X10: over any session of focus, change and blur events, the writer is
    called at most once per blur, [setDataset] at most as often as the
    writer, [onSave] and [onError] at most once per blur each, and the
    configuration error is queued at most once: after it the render throws
    and no handler runs any more. *)
Theorem session_call_bounds (p : Props) (evs : list InputEvent) (st : State) :
  count is_write (fst (play p st evs)) <= length (filter is_blur evs)
  /\ count is_setDataset (fst (play p st evs))
     <= count is_write (fst (play p st evs))
  /\ count is_onSave (fst (play p st evs)) <= length (filter is_blur evs)
  /\ count is_onError (fst (play p st evs)) <= length (filter is_blur evs)
  /\ count is_setErrorState (fst (play p st evs)) <= 1.
Proof.
  revert st. induction evs as [| ev evs IH]; intros st.
  - cbn. repeat split; lia.
  - cbn [play fst]. rewrite !count_app.
    destruct (dispatch_bounds p st ev)
      as (Hwrite & Hupdate & HonSave & HonError & Hthrow).
    destruct (IH (next (dispatch p st ev)))
      as (IHwrite & IHupdate & IHonSave & IHonError & IHthrow).
    assert (Hblur : length (filter is_blur (ev :: evs)) =
                    (if is_blur ev then 1 else 0)
                    + length (filter is_blur evs)).
    { cbn [filter]. now destruct (is_blur ev). }
    rewrite Hblur.
    repeat split; try lia.
    destruct Hthrow as [Hzero | [Hone Hpending]]; [lia |].
    rewrite (play_without_input p _ evs (input_value_pending p _ Hpending)).
    cbn. lia.
Qed.

(** Without autosave every event is local. *)
Lemma dispatch_without_autosave (p : Props) (st : State) (ev : InputEvent) :
  autosave p = false ->
  forallb is_local_update (effects (dispatch p st ev)) = true
  /\ contextDataset (next (dispatch p st ev)) = contextDataset st
  /\ pendingThrow (next (dispatch p st ev)) = pendingThrow st.
Proof.
  intros Hauto. unfold dispatch.
  destruct (input_value p st) as [shown |]; [| now cbn].
  destruct ev as [| typed |]; [now cbn | now cbn |].
  unfold run, onBlur. rewrite Hauto. now cbn.
Qed.

(** X11: while [autosave] is false (the default), no session of events
    calls anything but [setText] and [setInitialValue]: the writer and the
    callbacks are never called, and the dataset state stays as it is. *)
Theorem session_without_autosave_is_local (p : Props)
  (evs : list InputEvent) (st : State) :
  autosave p = false ->
  forallb is_local_update (fst (play p st evs)) = true
  /\ contextDataset (snd (play p st evs)) = contextDataset st
  /\ dataset p (snd (play p st evs)) = dataset p st
  /\ pendingThrow (snd (play p st evs)) = pendingThrow st.
Proof.
  intros Hauto.
  assert (Hcells :
    forall st,
      forallb is_local_update (fst (play p st evs)) = true
      /\ contextDataset (snd (play p st evs)) = contextDataset st
      /\ pendingThrow (snd (play p st evs)) = pendingThrow st).
  { induction evs as [| ev evs IH]; intros st0.
    - now cbn.
    - cbn [play fst snd]. rewrite forallb_app.
      destruct (dispatch_without_autosave p st0 ev Hauto)
        as (Hlocal & Hdata & Hpending).
      destruct (IH (next (dispatch p st0 ev)))
        as (IHlocal & IHdata & IHpending).
      rewrite Hlocal, IHlocal, IHdata, IHpending. auto. }
  destruct (Hcells st) as (Hlocal & Hdata & Hpending).
  repeat split; trivial. now apply dataset_of_context.
Qed.

(** A fulfilled write leaves the state with the saved dataset in it. *)
Lemma saveHandler_fulfilled_next (p : Props) (st : State) (v : string)
  (t : Thing) (d : SolidDataset) (url : UrlOrString) (saved : SolidDataset) :
  strict_neq (initialValue st) v = true ->
  thing p = Some t ->
  dataset p st = Some d ->
  destination p d = Some url ->
  saveSolidDatasetAt url (setThing d (updatedResource p t v)) (fetch p)
    = Fulfilled saved ->
  next (run (saveHandler p) st v) = with_contextDataset (Some saved) st.
Proof.
  intros Hneq Ht Hd Hdest Hsave.
  pose proof (save_step_fulfilled p d _ url saved st Hdest Hsave) as Hstep.
  rewrite (saveHandler_enters p st v t d Hneq Ht Hd).
  rewrite (try_catch_bind_returns _ _ _ st (Some saved)) by now rewrite Hstep.
  rewrite Hstep. cbn [effects next result].
  apply guarded_onSave_state.
Qed.

(** The input stays, and shows what was typed, across the local updates. *)
Lemma input_value_after_focus (p : Props) (st : State) (x : option string) :
  input_value p (with_initialValue x st) = input_value p st.
Proof.
  reflexivity.
Qed.

Lemma input_value_after_change (p : Props) (st : State)
  (shown typed : string) :
  input_value p st = Some shown ->
  input_value p (with_text (Some typed) st) = Some typed.
Proof.
  intros Hshown.
  destruct (input_value_inv p st shown Hshown)
    as (Hpending & Hedit & (t & Ht) & (d & Hd) & _).
  rewrite (input_value_intro p (with_text (Some typed) st) t d
             Hpending Hedit Ht Hd).
  cbn [with_text text]. now rewrite or_empty_some.
Qed.

(** One event at a time. *)
Lemma play_cons (p : Props) (st : State) (ev : InputEvent)
  (evs : list InputEvent) :
  play p st (ev :: evs) =
    ((effects (dispatch p st ev)
        ++ fst (play p (next (dispatch p st ev)) evs))%list,
     snd (play p (next (dispatch p st ev)) evs)).
Proof.
  reflexivity.
Qed.

Lemma dispatch_focus (p : Props) (st : State) (shown : string) :
  input_value p st = Some shown ->
  dispatch p st Focus =
    mkRun [CallSetInitialValue shown] (with_initialValue (Some shown) st)
      (Returns tt).
Proof.
  intros Hshown. unfold dispatch. now rewrite Hshown.
Qed.

Lemma dispatch_change (p : Props) (st : State) (shown typed : string) :
  input_value p st = Some shown ->
  dispatch p st (Change typed) =
    mkRun [CallSetText typed] (with_text (Some typed) st) (Returns tt).
Proof.
  intros Hshown. unfold dispatch. now rewrite Hshown.
Qed.

Lemma dispatch_blur (p : Props) (st : State) (shown : string) :
  input_value p st = Some shown ->
  dispatch p st Blur = run (onBlur p) st shown.
Proof.
  intros Hshown. unfold dispatch. now rewrite Hshown.
Qed.

(** X12: focus, type [v], blur, with autosave on, a destination, and [v]
    different from what the input showed: the one call of the writer submits
    the dataset with the thing updated to [v]; once it is fulfilled, the
    edit buffer holds [v], the snapshot is the value shown at focus, no
    throw is queued, the dataset the component reads is the saved dataset
    when it came from the context and still the [solidDataset] prop when it
    was passed as that prop, and the input shows [v]. *)
Theorem focus_type_blur_saves (p : Props) (st : State) (v : string)
  (t : Thing) (d : SolidDataset) (url : UrlOrString) (saved : SolidDataset) :
  pendingThrow st = None ->
  edit p = true ->
  autosave p = true ->
  thing p = Some t ->
  dataset p st = Some d ->
  String.eqb (or_empty (text st)) v = false ->
  destination p d = Some url ->
  saveSolidDatasetAt url (setThing d (updatedResource p t v)) (fetch p)
    = Fulfilled saved ->
  filter is_write (fst (play p st [Focus; Change v; Blur])) =
    [CallSaveSolidDatasetAt url (setThing d (updatedResource p t v)) (fetch p)]
  /\ text (snd (play p st [Focus; Change v; Blur])) = Some v
  /\ initialValue (snd (play p st [Focus; Change v; Blur])) =
       Some (or_empty (text st))
  /\ pendingThrow (snd (play p st [Focus; Change v; Blur])) = None
  /\ dataset p (snd (play p st [Focus; Change v; Blur])) =
       match solidDataset p with
       | Some own => Some own
       | None => Some saved
       end
  /\ input_value p (snd (play p st [Focus; Change v; Blur])) = Some v.
Proof.
  intros Hpending Hedit Hauto Ht Hd Hdiffers Hdest Hsave.
  pose proof (input_value_intro p st t d Hpending Hedit Ht Hd) as Hshown.
  set (shown := or_empty (text st)) in *.
  set (st1 := with_initialValue (Some shown) st).
  set (st2 := with_text (Some v) st1).
  assert (Hshown1 : input_value p st1 = Some shown) by exact Hshown.
  assert (Hshown2 : input_value p st2 = Some v)
    by exact (input_value_after_change p st1 shown v Hshown1).
  assert (Hneq : strict_neq (initialValue st2) v = true).
  { cbn. now rewrite Hdiffers. }
  assert (Hd2 : dataset p st2 = Some d) by exact Hd.
  rewrite !play_cons.
  rewrite (dispatch_focus p st shown Hshown). cbn [effects next].
  fold st1. rewrite (dispatch_change p st1 shown v Hshown1).
  cbn [effects next]. fold st2.
  rewrite (dispatch_blur p st2 v Hshown2), (onBlur_autosave p st2 v Hauto).
  cbn [play fst snd app filter is_write]. rewrite app_nil_r.
  rewrite (saveHandler_writes_to p st2 v t d url Hneq Ht Hd2 Hdest).
  rewrite (saveHandler_fulfilled_next p st2 v t d url saved
             Hneq Ht Hd2 Hdest Hsave).
  assert (Hread :
    dataset p (with_contextDataset (Some saved) st2) =
      match solidDataset p with
      | Some own => Some own
      | None => Some saved
      end).
  { unfold dataset. now destruct (solidDataset p). }
  split; [reflexivity |]. split; [reflexivity |]. split; [reflexivity |].
  split; [exact Hpending |]. split; [exact Hread |].
  assert (Hsome : exists d', dataset p (with_contextDataset (Some saved) st2)
                             = Some d').
  { rewrite Hread. destruct (solidDataset p); eauto. }
  destruct Hsome as [d' Hd'].
  rewrite (input_value_intro p (with_contextDataset (Some saved) st2) t d'
             Hpending Hedit Ht Hd').
  unfold st2, st1. cbn [with_contextDataset with_text with_initialValue text].
  now rewrite or_empty_some.
Qed.

(** X13: focus, type anything, type the value the input showed at focus
    back, blur: the blur calls nothing, autosave or not; what decides a
    save is the value, not whether there were changes. *)
Theorem focus_type_revert_blur_is_silent (p : Props) (st : State)
  (shown v : string) :
  input_value p st = Some shown ->
  fst (play p st [Focus; Change v; Change shown; Blur]) =
    [CallSetInitialValue shown; CallSetText v; CallSetText shown]
  /\ contextDataset (snd (play p st [Focus; Change v; Change shown; Blur]))
     = contextDataset st
  /\ dataset p (snd (play p st [Focus; Change v; Change shown; Blur]))
     = dataset p st.
Proof.
  intros Hshown.
  set (st1 := with_initialValue (Some shown) st).
  set (st2 := with_text (Some v) st1).
  set (st3 := with_text (Some shown) st2).
  assert (Hshown1 : input_value p st1 = Some shown) by exact Hshown.
  assert (Hshown2 : input_value p st2 = Some v)
    by exact (input_value_after_change p st1 shown v Hshown1).
  assert (Hshown3 : input_value p st3 = Some shown)
    by exact (input_value_after_change p st2 v shown Hshown2).
  assert (Hblur : dispatch p st3 Blur = mkRun [] st3 (Returns tt)).
  { rewrite (dispatch_blur p st3 shown Hshown3).
    apply onBlur_skips. left. apply strict_neq_same. }
  rewrite !play_cons.
  rewrite (dispatch_focus p st shown Hshown). cbn [effects next].
  fold st1. rewrite (dispatch_change p st1 shown v Hshown1).
  cbn [effects next]. fold st2.
  rewrite (dispatch_change p st2 v shown Hshown2).
  cbn [effects next]. fold st3.
  rewrite Hblur. now cbn.
Qed.

(** A rejected write leaves the state as it was. *)
Lemma saveHandler_rejected_next (p : Props) (st : State) (v : string)
  (t : Thing) (d : SolidDataset) (url : UrlOrString) (e : Err) :
  strict_neq (initialValue st) v = true ->
  thing p = Some t ->
  dataset p st = Some d ->
  destination p d = Some url ->
  saveSolidDatasetAt url (setThing d (updatedResource p t v)) (fetch p)
    = Rejected e ->
  next (run (saveHandler p) st v) = st.
Proof.
  intros Hneq Ht Hd Hdest Hsave.
  pose proof (save_step_rejected p d _ url e st Hdest Hsave) as Hstep.
  rewrite (saveHandler_enters p st v t d Hneq Ht Hd).
  rewrite (try_catch_bind_throws _ _ _ st e) by now rewrite Hstep.
  rewrite Hstep. cbn [effects next result].
  apply notify_onError_state.
Qed.

(** X14: after a save that failed, the typed value stays in the input and
    the dataset is the old one; focusing the input again takes the typed
    value as the new snapshot, so that a blur without further typing does
    not call the writer again: the value that failed to save is not retried. *)
Theorem failed_save_is_not_retried (p : Props) (st : State) (v : string)
  (t : Thing) (d : SolidDataset) (url : UrlOrString) (e : Err) :
  pendingThrow st = None ->
  edit p = true ->
  autosave p = true ->
  thing p = Some t ->
  dataset p st = Some d ->
  String.eqb (or_empty (text st)) v = false ->
  destination p d = Some url ->
  saveSolidDatasetAt url (setThing d (updatedResource p t v)) (fetch p)
    = Rejected e ->
  filter is_write (fst (play p st [Focus; Change v; Blur; Focus; Blur])) =
    [CallSaveSolidDatasetAt url (setThing d (updatedResource p t v)) (fetch p)]
  /\ snd (play p st [Focus; Change v; Blur; Focus; Blur]) =
       mkState (Some v) (Some v) (contextDataset st) None
  /\ dataset p (snd (play p st [Focus; Change v; Blur; Focus; Blur])) = Some d
  /\ input_value p (snd (play p st [Focus; Change v; Blur; Focus; Blur]))
     = Some v.
Proof.
  intros Hpending Hedit Hauto Ht Hd Hdiffers Hdest Hsave.
  pose proof (input_value_intro p st t d Hpending Hedit Ht Hd) as Hshown.
  set (shown := or_empty (text st)) in *.
  set (st1 := with_initialValue (Some shown) st).
  set (st2 := with_text (Some v) st1).
  set (st3 := with_initialValue (Some v) st2).
  assert (Hshown1 : input_value p st1 = Some shown) by exact Hshown.
  assert (Hshown2 : input_value p st2 = Some v)
    by exact (input_value_after_change p st1 shown v Hshown1).
  assert (Hshown3 : input_value p st3 = Some v) by exact Hshown2.
  assert (Hneq : strict_neq (initialValue st2) v = true).
  { cbn. now rewrite Hdiffers. }
  assert (Hd2 : dataset p st2 = Some d) by exact Hd.
  assert (Hblur : dispatch p st3 Blur = mkRun [] st3 (Returns tt)).
  { rewrite (dispatch_blur p st3 v Hshown3).
    apply onBlur_skips. left. apply strict_neq_same. }
  rewrite !play_cons.
  rewrite (dispatch_focus p st shown Hshown). cbn [effects next].
  fold st1. rewrite (dispatch_change p st1 shown v Hshown1).
  cbn [effects next]. fold st2.
  rewrite (dispatch_blur p st2 v Hshown2), (onBlur_autosave p st2 v Hauto).
  rewrite (saveHandler_rejected_next p st2 v t d url e Hneq Ht Hd2 Hdest Hsave).
  rewrite (dispatch_focus p st2 v Hshown2). cbn [effects next].
  fold st3. rewrite Hblur.
  cbn [play fst snd app effects next filter is_write].
  rewrite filter_app, (saveHandler_writes_to p st2 v t d url Hneq Ht Hd2 Hdest).
  split; [reflexivity |]. split; [| split].
  - unfold st3, st2, st1, with_text, with_initialValue. cbn.
    now rewrite Hpending.
  - exact Hd.
  - exact Hshown3.
Qed.

End TextSessions.

(** * The further properties on the pod in miniature *)

Section MoreOnTheDemoPod.

Import Demo.

(** The server refuses, and [onError] throws: the promise is rejected. *)
Lemma saveHandler_rejects_only_from_onError_witness :
  exists cb e0,
    onError (configured None None None (Some failing_onError) true false)
      = Some cb
    /\ cb e0 = Throws "onError failed"
    /\ In (CallOnError e0)
         (effects
            (run (saveHandler
                    (configured None None None (Some failing_onError)
                       true false))
               (edited (Some fetched_dataset) "Bob") "Bob")).
Proof.
  apply (saveHandler_rejects_only_from_onError (SC := pod)
           (configured None None None (Some failing_onError) true false)
           (edited (Some fetched_dataset) "Bob") "Bob" "onError failed").
  reflexivity.
Defined.

(** The write succeeds, [onSave] throws: [onError] hears "onSave failed". *)
Lemma onSave_throw_reaches_onError_witness :
  filter is_onError
    (effects
       (run (saveHandler
               (configured None None (Some failing_onSave)
                  (Some quiet_onError) true true))
          (edited (Some fetched_dataset) "Bob") "Bob"))
  = [@CallOnError pod "onSave failed"].
Proof.
  pose proof (onSave_throw_reaches_onError (SC := pod)
                (configured None None (Some failing_onSave)
                   (Some quiet_onError) true true)
                (edited (Some fetched_dataset) "Bob") "Bob" alice
                fetched_dataset (AsUrlString "https://pod.example/profile")
                (mkDemoDataset (Some "https://pod.example/profile")
                   [[(iri name_property, "Bob", None)]; alice])
                failing_onSave "onSave failed"
                eq_refl eq_refl eq_refl eq_refl eq_refl eq_refl eq_refl)
    as (Heffects & _).
  now rewrite Heffects.
Defined.

(** A fetched dataset saved elsewhere. *)
Lemma saveDatasetTo_takes_precedence_witness :
  filter is_write
    (effects
       (run (saveHandler
               (configured (Some (AsUrlString "https://other.example/copy"))
                  None None None true true))
          (edited (Some fetched_dataset) "Bob") "Bob"))
  = [@CallSaveSolidDatasetAt pod (AsUrlString "https://other.example/copy")
       (mkDemoDataset (Some "https://pod.example/profile")
          [[(iri name_property, "Bob", None)]; alice])
       true].
Proof.
  apply (saveDatasetTo_takes_precedence (SC := pod)
           (configured (Some (AsUrlString "https://other.example/copy"))
              None None None true true)
           (edited (Some fetched_dataset) "Bob") "Bob" alice fetched_dataset
           (AsUrlString "https://other.example/copy"));
    reflexivity.
Defined.

(** [saveDatasetTo] is the empty string: the dataset goes back where it
    came from. *)
Lemma falsy_saveDatasetTo_uses_source_url_witness :
  filter is_write
    (effects
       (run (saveHandler
               (configured (Some (AsUrlString EmptyString))
                  None None None true true))
          (edited (Some fetched_dataset) "Bob") "Bob"))
  = [@CallSaveSolidDatasetAt pod (AsUrlString "https://pod.example/profile")
       (mkDemoDataset (Some "https://pod.example/profile")
          [[(iri name_property, "Bob", None)]; alice])
       true].
Proof.
  apply (falsy_saveDatasetTo_uses_source_url (SC := pod)
           (configured (Some (AsUrlString EmptyString))
              None None None true true)
           (edited (Some fetched_dataset) "Bob") "Bob" alice fetched_dataset);
    reflexivity.
Defined.

(** A French name. *)
Lemma locale_selects_setter_witness :
  filter is_write
    (effects
       (run (saveHandler (configured None (Some "fr") None None true true))
          (edited (Some fetched_dataset) "Bob") "Bob"))
  = [@CallSaveSolidDatasetAt pod (AsUrlString "https://pod.example/profile")
       (mkDemoDataset (Some "https://pod.example/profile")
          [[(iri name_property, "Bob", Some "fr")]; alice])
       true].
Proof.
  apply (locale_selects_setter (SC := pod)
           (configured None (Some "fr") None None true true)
           (edited (Some fetched_dataset) "Bob") "Bob" alice fetched_dataset
           (AsUrlString "https://pod.example/profile") "fr");
    reflexivity.
Defined.

(** A thing without a dataset: no loading text, nothing rendered. *)
Lemma render_loading_and_empty_witness :
  (render viewing (mount viewing None)
     = Returns (element (h3 "fetching data in progress"))
   <-> thing viewing = None /\ dataset viewing (mount viewing None) = None)
  /\ (render viewing (mount viewing None) = Returns (fragment [])
      <-> (thing viewing = None /\ dataset viewing (mount viewing None) <> None)
          \/ (thing viewing <> None /\ dataset viewing (mount viewing None) = None)).
Proof.
  apply (render_loading_and_empty (SC := pod) viewing (mount viewing None)).
  reflexivity.
Defined.

(** The input of the first render shows "Alice". *)
Lemma edit_mount_prepopulates_input_witness :
  input_value (editing true) (mount (editing true) (Some fetched_dataset))
  = Some "Alice".
Proof.
  apply (edit_mount_prepopulates_input (SC := pod) (editing true) alice
           fetched_dataset);
    reflexivity.
Defined.

(** Editing without autosave. *)
Lemma session_without_autosave_is_local_witness :
  forallb is_local_update
    (fst (play (configured None None (Some quiet_onSave) (Some quiet_onError)
                  false true)
            (mounted (Some fetched_dataset)) [Focus; Change "Bob"; Blur]))
  = true.
Proof.
  apply (session_without_autosave_is_local (SC := pod)
           (configured None None (Some quiet_onSave) (Some quiet_onError)
              false true)
           [Focus; Change "Bob"; Blur] (mounted (Some fetched_dataset))).
  reflexivity.
Defined.

(** "Alice" becomes "Bob". *)
Lemma focus_type_blur_saves_witness :
  text (snd (play (editing true) (mounted (Some fetched_dataset))
               [Focus; Change "Bob"; Blur]))
  = Some "Bob"
  /\ dataset (editing true)
       (snd (play (editing true) (mounted (Some fetched_dataset))
               [Focus; Change "Bob"; Blur]))
     = Some (mkDemoDataset (Some "https://pod.example/profile")
               [[(iri name_property, "Bob", None)]; alice]).
Proof.
  pose proof (focus_type_blur_saves (SC := pod) (editing true)
                (mounted (Some fetched_dataset)) "Bob" alice fetched_dataset
                (AsUrlString "https://pod.example/profile")
                (mkDemoDataset (Some "https://pod.example/profile")
                   [[(iri name_property, "Bob", None)]; alice])
                eq_refl eq_refl eq_refl eq_refl eq_refl eq_refl eq_refl
                eq_refl)
    as (_ & Htext & _ & _ & Hread & _).
  split; [exact Htext | exact Hread].
Defined.

(** "Alice", "Bob", "Alice" again. *)
Lemma focus_type_revert_blur_is_silent_witness :
  fst (play (editing true) (mounted (Some fetched_dataset))
         [Focus; Change "Bob"; Change "Alice"; Blur])
  = [@CallSetInitialValue pod "Alice"; CallSetText "Bob"; CallSetText "Alice"].
Proof.
  apply (focus_type_revert_blur_is_silent (SC := pod) (editing true)
           (mounted (Some fetched_dataset)) "Alice" "Bob").
  reflexivity.
Defined.

(** The server refuses "Bob"; "Bob" stays in the input, unsaved. *)
Lemma failed_save_is_not_retried_witness :
  snd (play (editing false) (mounted (Some fetched_dataset))
         [Focus; Change "Bob"; Blur; Focus; Blur])
  = mkState (SC := pod) (Some "Bob") (Some "Bob") (Some fetched_dataset) None.
Proof.
  apply (failed_save_is_not_retried (SC := pod) (editing false)
           (mounted (Some fetched_dataset)) "Bob" alice fetched_dataset
           (AsUrlString "https://pod.example/profile") "403 Forbidden");
    reflexivity.
Defined.

End MoreOnTheDemoPod.
